(** * AWS cost and forecast report: a shallow embedding of [lambda_handler.py]

    The handler is glue code around three external services: the AWS Cost
    Explorer (billing and forecast), a public FX ticker and a Slack webhook.
    The embedding keeps the shape of the Python source:

    - Python exceptions are values of type [exn]; a computation that can
      raise returns a [result];
    - the services, the system clock and the process environment are an
      oracle record [world]; every call to them is recorded as an [event];
    - the functions of the handler are computations in the monad [M], which
      reads the world, may raise, and writes the events it performs;
    - Python floats are IEEE 754 binary64 numbers, modelled by the
      [spec_float] of the standard library at precision 53. *)

From Stdlib Require Import ZArith List String Ascii Bool Lia.
From Stdlib Require Import Permutation Sorted.
From Stdlib Require Import SpecFloat DecimalString.
Import ListNotations.

Local Open Scope string_scope.
Local Open Scope Z_scope.

Set Implicit Arguments.

(* ================================================================= *)
(** * Python exceptions and fallible computations *)

(** The exception classes the handler names or can meet.  Only subclasses
    of [Exception] are modelled: [KeyboardInterrupt] and [SystemExit] are
    not raised by any code of the handler. *)
Inductive exn_class :=
| BotoCoreError
| ClientError
| RequestException
| HTTPError            (* requests.HTTPError, a RequestException *)
| JSONDecodeError      (* requests.JSONDecodeError: RequestException and ValueError *)
| ValueError
| TypeError
| KeyError
| IndexError
| AttributeError
| OverflowError
| OtherException (name : string).

Record exn := Exn { exn_cls : exn_class; exn_str : string }.

Definition exn_class_eqb (a b : exn_class) : bool :=
  match a, b with
  | BotoCoreError, BotoCoreError | ClientError, ClientError
  | RequestException, RequestException | HTTPError, HTTPError
  | JSONDecodeError, JSONDecodeError | ValueError, ValueError
  | TypeError, TypeError | KeyError, KeyError | IndexError, IndexError
  | AttributeError, AttributeError | OverflowError, OverflowError => true
  | OtherException n, OtherException m => String.eqb n m
  | _, _ => false
  end.

(** [subclass c d]: class [c] is [d] or derives from it. *)
Definition subclass (c d : exn_class) : bool :=
  exn_class_eqb c d ||
  match c, d with
  | HTTPError, RequestException => true
  | JSONDecodeError, RequestException => true
  | JSONDecodeError, ValueError => true
  | _, _ => false
  end.

(** [isinstance e cs]: the test of an [except (C1, ..., Cn)] clause. *)
Definition isinstance (e : exn) (cs : list exn_class) : bool :=
  existsb (subclass (exn_cls e)) cs.

Definition result (A : Type) : Type := (exn + A)%type.

Definition ok {A} (a : A) : result A := inr a.
Definition throw {A} (c : exn_class) (msg : string) : result A := inl (Exn c msg).

Definition rbind {A B} (r : result A) (f : A -> result B) : result B :=
  match r with
  | inl e => inl e
  | inr a => f a
  end.

Declare Scope result_scope.
Delimit Scope result_scope with res.
Notation "x <- r ;; k" := (rbind r (fun x => k))
  (at level 61, r at next level, right associativity) : result_scope.

(* ================================================================= *)
(** * Python floats *)

(** Python's [float] type. *)
Abbreviation float := spec_float.

Module Float64.

Definition prec : Z := 53.
Definition emax : Z := 1024.

Definition mul : float -> float -> float := SFmul prec emax.
Definition ltb : float -> float -> bool := SFltb.

Definition is_nan (f : float) : bool :=
  match f with S754_nan => true | _ => false end.

(** [float(z)] for a Python int: round to nearest even; an int whose
    rounding is not finite raises [OverflowError]. *)
Definition of_Z (z : Z) : result float :=
  match binary_normalize prec emax z 0 false with
  | S754_infinity _ | S754_nan =>
      throw OverflowError "int too large to convert to float"
  | f => ok f
  end.

(** The float denoted by the decimal literal [n / 10^k], correctly
    rounded (what the Python reader and [float] make of [10.004]). *)
Definition of_decimal (n : Z) (k : nat) : float :=
  match n with
  | Z0 => S754_zero false
  | _ =>
      let '(q, e, l) :=
        SFdiv_core_binary prec emax (Z.abs n) 0 (10 ^ Z.of_nat k) 0 in
      binary_round_aux prec emax (n <? 0) q e l
  end.

(** [int(f)]: truncation toward zero; NaN and the infinities raise. *)
Definition to_int (f : float) : result Z :=
  match f with
  | S754_zero _ => ok 0
  | S754_finite s m e => ok (cond_Zopp s (Z.shiftl (Zpos m) e))
  | S754_infinity _ =>
      throw OverflowError "cannot convert float infinity to integer"
  | S754_nan => throw ValueError "cannot convert float NaN to integer"
  end.

(** The mathematical floor of a finite float: its value is
    [(-1)^s * m * 2^e], and shifting the signed mantissa rounds toward
    minus infinity. *)
Definition floor (f : float) : option Z :=
  match f with
  | S754_zero _ => Some 0
  | S754_finite s m e => Some (Z.shiftl (cond_Zopp s (Zpos m)) e)
  | _ => None
  end.

(** Sign test on the value, [0 <= f]. *)
Definition nonneg (f : float) : bool :=
  match f with
  | S754_zero _ => true
  | S754_finite s _ _ | S754_infinity s => negb s
  | S754_nan => false
  end.

End Float64.


(* ================================================================= *)
(** * Python values

    The Lambda event and the body of the FX ticker are decoded JSON: open
    ended mappings, as the source treats them.  A [dict] is an association
    list with distinct keys, read by its first binding. *)

#[warnings="-register-all"]
Inductive pyval :=
| PNone
| PBool (b : bool)
| PInt (z : Z)
| PFloat (f : float)
| PStr (s : string)
| PList (l : list pyval)
| PDict (d : list (string * pyval)).

Fixpoint assoc {V} (k : string) (d : list (string * V)) : option V :=
  match d with
  | [] => None
  | (k', v) :: d' => if String.eqb k k' then Some v else assoc k d'
  end.

Definition type_name (v : pyval) : string :=
  match v with
  | PNone => "NoneType"
  | PBool _ => "bool"
  | PInt _ => "int"
  | PFloat _ => "float"
  | PStr _ => "str"
  | PList _ => "list"
  | PDict _ => "dict"
  end.

(** [v.get(k, default)]: only a dict has the method. *)
Definition py_get (v : pyval) (k : string) (default : pyval) : result pyval :=
  match v with
  | PDict d => ok (match assoc k d with Some x => x | None => default end)
  | _ => throw AttributeError
           ("'" ++ type_name v ++ "' object has no attribute 'get'")
  end.

(** Truth value of an object, as [if v:] and [not v] test it. *)
Definition py_truthy (v : pyval) : bool :=
  match v with
  | PNone => false
  | PBool b => b
  | PInt z => negb (z =? 0)
  | PFloat f => negb (SFeqb f (S754_zero false))
  | PStr s => negb (String.eqb s "")
  | PList l => match l with [] => false | _ => true end
  | PDict d => match d with [] => false | _ => true end
  end.

(** [v != 0]: numbers compare by value ([False == 0], [0.0 == 0]);
    anything else differs from [0]. *)
Definition py_ne_zero (v : pyval) : bool :=
  match v with
  | PBool b => b
  | PInt z => negb (z =? 0)
  | PFloat f => negb (SFeqb f (S754_zero false))
  | _ => true
  end.

(** [v == s] for a string literal [s]. *)
Definition py_eq_str (v : pyval) (s : string) : bool :=
  match v with
  | PStr s' => String.eqb s' s
  | _ => false
  end.

Fixpoint chars (s : string) : list pyval :=
  match s with
  | EmptyString => []
  | String c s' => PStr (String c EmptyString) :: chars s'
  end.

(** The items a [for x in v] visits. *)
Definition py_iter (v : pyval) : result (list pyval) :=
  match v with
  | PList l => ok l
  | PDict d => ok (map (fun kv => PStr (fst kv)) d)
  | PStr s => ok (chars s)
  | _ => throw TypeError ("'" ++ type_name v ++ "' object is not iterable")
  end.

(* ================================================================= *)
(** * Text formatting *)

Definition nl : string := String (ascii_of_nat 10) EmptyString.

(** Decimal digits of a natural number, [str(n)]. *)
Definition digits (n : Z) : string :=
  NilZero.string_of_uint (N.to_uint (Z.to_N n)).

(** [s.zfill(width)] for a digit string. *)
Fixpoint zeros (n : nat) : string :=
  match n with
  | O => ""
  | S n' => "0" ++ zeros n'
  end.

Definition zfill (width : nat) (s : string) : string :=
  zeros (width - String.length s) ++ s.

(** Thousands separators, the [,] of the format mini-language: a comma
    before every group of three digits counted from the right. *)
Fixpoint group3 (s : string) (n : nat) : string :=
  match s with
  | EmptyString => ""
  | String c s' =>
      let sep := match n with
                 | O => ""
                 | S _ => if (Nat.eqb (Nat.modulo n 3) 0) then "," else ""
                 end in
      String c (sep ++ group3 s' (Nat.pred n))
  end.

Definition grouped (s : string) : string :=
  group3 s (Nat.pred (String.length s)).

(** [f"{z:,}"] for an int. *)
Definition format_int_grouped (z : Z) : string :=
  (if z <? 0 then "-" else "") ++ grouped (digits (Z.abs z)).

Definition round_half_even (num den : Z) : Z :=
  let q := num / den in
  match (2 * (num mod den)) ?= den with
  | Lt => q
  | Gt => q + 1
  | Eq => if Z.even q then q else q + 1
  end.

(** [f"{x:.2f}"] and, with [grouping], [f"{x:,.2f}"]: the exact value of
    the float rounded half-even to hundredths. *)
Definition format_float_2f (grouping : bool) (x : float) : string :=
  let body (s : bool) (hundredths : Z) :=
    let int_part := digits (hundredths / 100) in
    (if s then "-" else "") ++
    (if grouping then grouped int_part else int_part) ++ "." ++
    zfill 2 (digits (hundredths mod 100)) in
  match x with
  | S754_nan => "nan"
  | S754_infinity s => if s then "-inf" else "inf"
  | S754_zero s => body s 0
  | S754_finite s m e =>
      body s (if 0 <=? e then Zpos m * 2 ^ e * 100
              else round_half_even (Zpos m * 100) (2 ^ (- e)))
  end.

(* ================================================================= *)
(** * Calendar dates ([datetime.date], [calendar]) *)

Record date := Date { year : Z; month : Z; day : Z }.

Definition MINYEAR : Z := 1.
Definition MAXYEAR : Z := 9999.

Definition isleap (y : Z) : bool :=
  (y mod 4 =? 0) && (negb (y mod 100 =? 0) || (y mod 400 =? 0)).

Definition days_in_month (y m : Z) : Z :=
  if m =? 2 then (if isleap y then 29 else 28)
  else if (m =? 4) || (m =? 6) || (m =? 9) || (m =? 11) then 30
  else 31.

(** The values of type [datetime.date]. *)
Definition valid_dateb (d : date) : bool :=
  (MINYEAR <=? year d) && (year d <=? MAXYEAR) &&
  (1 <=? month d) && (month d <=? 12) &&
  (1 <=? day d) && (day d <=? days_in_month (year d) (month d)).

Definition valid_date (d : date) : Prop := valid_dateb d = true.

(** [calendar.monthrange(year, month)[1]]: the number of days of the
    month.  The weekday it also returns is bound to [_] by the caller. *)
Definition monthrange_days (y m : Z) : result Z :=
  if (1 <=? m) && (m <=? 12) then ok (days_in_month y m)
  else throw ValueError "bad month number; must be 1-12".

(** [d.replace(day=n)]. *)
Definition replace_day (d : date) (n : Z) : result date :=
  if (1 <=? n) && (n <=? days_in_month (year d) (month d))
  then ok (Date (year d) (month d) n)
  else throw ValueError "day is out of range for month".

(** [d - datetime.timedelta(days=1)]: the calendar day before [d]. *)
Definition sub_one_day (d : date) : result date :=
  if 1 <? day d then ok (Date (year d) (month d) (day d - 1))
  else if 1 <? month d then
    ok (Date (year d) (month d - 1) (days_in_month (year d) (month d - 1)))
  else if MINYEAR <? year d then ok (Date (year d - 1) 12 31)
  else throw OverflowError "date value out of range".

(** [d + datetime.timedelta(days=1)]: the calendar day after [d]. *)
Definition add_one_day (d : date) : result date :=
  if day d <? days_in_month (year d) (month d) then
    ok (Date (year d) (month d) (day d + 1))
  else if month d <? 12 then ok (Date (year d) (month d + 1) 1)
  else if year d <? MAXYEAR then ok (Date (year d + 1) 1 1)
  else throw OverflowError "date value out of range".

(** Chronological order. *)
Definition date_ltb (a b : date) : bool :=
  (year a <? year b) ||
  ((year a =? year b) &&
   ((month a <? month b) || ((month a =? month b) && (day a <? day b)))).

Definition date_leb (a b : date) : bool := negb (date_ltb b a).

Definition date_lt (a b : date) : Prop := date_ltb a b = true.
Definition date_le (a b : date) : Prop := date_leb a b = true.

Definition DATE_FORMAT : string := "%Y-%m-%d".

(** [d.strftime(DATE_FORMAT)]: year, month and day as zero-padded decimal
    fields of width 4, 2 and 2.  (Below the year 1000 the padding of [%Y]
    is left to the C library; no property depends on it.) *)
Definition strftime (d : date) : string :=
  zfill 4 (digits (year d)) ++ "-" ++ zfill 2 (digits (month d)) ++ "-" ++
  zfill 2 (digits (day d)).

(* ================================================================= *)
(** * Shapes of the service responses

    boto3 decodes a response along the service model: a member is absent
    or has the declared type.  The records follow the [TypedDict]s of the
    source; an absent member is [None]. *)

Record UnblendedCost := { Amount : option string; Unit : option string }.

(** A dict from metric name to its value, [{"UnblendedCost": {...}}]. *)
Definition Metrics : Type := list (string * UnblendedCost).

Record CostItem := { Keys : option (list string); Metrics_ : option Metrics }.

Record ResultByTime := { Total : option Metrics; Groups : option (list CostItem) }.

Record CostAndUsage := { ResultsByTime : option (list ResultByTime) }.

Record CostForecast := { ForecastTotal : option UnblendedCost }.

Record CallerIdentity := { Account : option string }.

Record ListAccountAliases := { AccountAliases : option (list string) }.

Record Dates := {
  today : string;
  yesterday : string;
  start_of_next_month : string;
  start_date : string;
  is_first_day : bool
}.

(** A [requests.Response]: the status line and the body decoded as JSON
    ([None] when the body is not JSON). *)
Record Response := { status_code : Z; json_body : option pyval }.

(** [d[k]] on a member that may be absent. *)
Definition getitem {A} (member : option A) (k : string) : result A :=
  match member with
  | Some a => ok a
  | None => throw KeyError ("'" ++ k ++ "'")
  end.

(** [response.raise_for_status()]. *)
Definition raise_for_status (r : Response) : result unit :=
  if (400 <=? status_code r) && (status_code r <? 600)
  then throw HTTPError (digits (status_code r) ++ " Error")
  else ok tt.

(** [response.json()]. *)
Definition json (r : Response) : result pyval :=
  match json_body r with
  | Some v => ok v
  | None => throw JSONDecodeError "Expecting value: line 1 column 1 (char 0)"
  end.

(* ================================================================= *)
(** * The outside world and the effects of the handler *)

Record world := {
  (** [datetime.date.today()] *)
  date_today : date;
  (** [os.getenv("SLACK_WEBHOOK_URL")] *)
  getenv_SLACK_WEBHOOK_URL : option string;
  (** [boto3.client(name)]: [None] when the client is created *)
  boto3_client : string -> option exn;
  sts_get_caller_identity : result CallerIdentity;
  iam_list_account_aliases : result ListAccountAliases;
  (** [TimePeriod.Start], [TimePeriod.End], and whether [GroupBy] is sent *)
  ce_get_cost_and_usage : string -> string -> bool -> result CostAndUsage;
  ce_get_cost_forecast : string -> string -> result CostForecast;
  (** [requests.get(url)], [requests.post(url, json=...)]: the response, or
      the text of the [RequestException] the library raises *)
  requests_get : string -> string + Response;
  requests_post : string -> pyval -> string + Response
}.

Inductive level := INFO | ERROR.

Inductive event :=
| EvLog (lv : level) (msg : string)
| EvClient (service : string)
| EvGetCallerIdentity
| EvListAccountAliases
| EvGetCostAndUsage (start end_ : string) (group_by : bool)
| EvGetCostForecast (start end_ : string)
| EvGet (url : string)
| EvPost (url : string) (body : pyval)
| EvPrint (text : string).

(** A computation of the handler: reads the world, returns or raises, and
    lists the events it performed, oldest first. *)
Definition M (A : Type) : Type := world -> result A * list event.

Definition ret {A} (a : A) : M A := fun _ => (inr a, []).

Definition raise {A} (e : exn) : M A := fun _ => (inl e, []).

Definition bind {A B} (m : M A) (f : A -> M B) : M B :=
  fun w =>
    match m w with
    | (inl e, t) => (inl e, t)
    | (inr a, t) => let (r, t') := f a w in (r, (t ++ t')%list)
    end.

Definition lift {A} (r : result A) : M A := fun _ => (r, []).

Definition emit (ev : event) : M unit := fun _ => (inr tt, [ev]).

(** Perform the call [ev] whose outcome the world decides. *)
Definition call {A} (ev : event) (outcome : world -> result A) : M A :=
  fun w => (outcome w, [ev]).

(** [try: body except <classes> as error: handler error]. *)
Definition try_except {A} (body : M A) (caught : exn -> bool)
    (handler : exn -> M A) : M A :=
  fun w =>
    match body w with
    | (inl e, t) =>
        if caught e
        then let (r, t') := handler e w in (r, (t ++ t')%list)
        else (inl e, t)
    | (inr a, t) => (inr a, t)
    end.

(** [except Exception]: every exception of the model is one. *)
Definition Exception (e : exn) : bool := true.

Declare Scope M_scope.
Delimit Scope M_scope with M.
Notation "x <- m ;; k" := (bind m (fun x => k))
  (at level 61, m at next level, right associativity) : M_scope.
Notation "' pat <- m ;; k" := (bind m (fun x => match x with pat => k end))
  (at level 61, pat pattern, m at next level, right associativity) : M_scope.
Notation "m ;; k" := (bind m (fun _ => k))
  (at level 61, right associativity) : M_scope.

Definition logger_info (msg : string) : M unit := emit (EvLog INFO msg).
Definition logger_error (msg : string) : M unit := emit (EvLog ERROR msg).
Definition print (text : string) : M unit := emit (EvPrint text).

Definition client (service : string) : M unit :=
  call (EvClient service)
       (fun w => match boto3_client w service with
                 | Some e => inl e
                 | None => inr tt
                 end).

Definition as_request_exception {A} (r : string + A) : result A :=
  match r with
  | inl msg => throw RequestException msg
  | inr a => ok a
  end.

Definition GMOCOIN_API_ENDPOINT : string :=
  "https://forex-api.coin.z.com/public/v1/ticker".

Definition DEFAULT_EXCHANGE_RATE : float := Float64.of_decimal 1500 1.

(* ================================================================= *)
(** * Concrete data

    A reader of plain decimal literals and a small account, on which the
    handler can be run. *)

Definition digit_of (c : ascii) : option Z :=
  let n := Z.of_nat (nat_of_ascii c) in
  if (48 <=? n) && (n <=? 57) then Some (n - 48) else None.

Fixpoint scan_decimal (s : string) (n : Z) (k : nat) (dot any : bool)
  : option (Z * nat) :=
  match s with
  | EmptyString => if any then Some (n, k) else None
  | String c s' =>
      if Ascii.eqb c "." then
        if dot then None else scan_decimal s' n k true any
      else
        match digit_of c with
        | Some d => scan_decimal s' (10 * n + d) (if dot then S k else k) dot true
        | None => None
        end
  end.

(** [float] on the literals [-]digits[.digits]; every other string is
    rejected.  The properties below hold for any reader, this one runs
    the examples. *)
Definition decimal_float_of_str (s : string) : option float :=
  match s with
  | String "-" s' =>
      match scan_decimal s' 0 0 false false with
      | Some (n, k) => Some (SFopp (Float64.of_decimal n k))
      | None => None
      end
  | _ =>
      match scan_decimal s 0 0 false false with
      | Some (n, k) => Some (Float64.of_decimal n k)
      | None => None
      end
  end.

(** A printer of floats for the log line of the examples (two decimals
    where Python prints the shortest literal). *)
Definition example_str_of_float (x : float) : string := format_float_2f false x.

Definition usd (amount : string) : Metrics :=
  [("UnblendedCost", {| Amount := Some amount; Unit := Some "USD" |})].

Definition group (service amount : string) : CostItem :=
  {| Keys := Some [service]; Metrics_ := Some (usd amount) |}.

(** Seven categories, "Tax" the largest, two of equal amount. *)
Definition example_groups : list CostItem :=
  [group "EC2" "100.5"; group "Tax" "300"; group "S3" "20.25";
   group "RDS" "100.5"; group "Lambda" "0.35"; group "SNS" "1";
   group "SQS" "20"].

Definition usage (groups : list CostItem) (group_by : bool) : CostAndUsage :=
  {| ResultsByTime :=
       Some [ {| Total := if group_by then None else Some (usd "542.10");
                 Groups := if group_by then Some groups else None |} ] |}.

Definition ticker (pairs : list (string * string)) : pyval :=
  PDict [("status", PInt 0);
         ("data",
          PList (map (fun p => PDict [("symbol", PStr (fst p));
                                      ("ask", PStr (snd p))]) pairs))].

Definition example_ticker : Response :=
  {| status_code := 200;
     json_body := Some (ticker [("EUR_JPY", "160.1"); ("USD_JPY", "145.0")]) |}.

(** An account on the date [t], with the webhook variable [url], the
    answer [fx] of the FX ticker, the answer [identity] of the identity
    service and the [groups] of the grouped billing response. *)
Definition account_world (t : date) (url : option string)
    (fx : string + Response) (identity : result CallerIdentity)
    (groups : list CostItem) : world :=
  {| date_today := t;
     getenv_SLACK_WEBHOOK_URL := url;
     boto3_client := fun _ => None;
     sts_get_caller_identity := identity;
     iam_list_account_aliases := ok {| AccountAliases := Some ["prod"] |};
     ce_get_cost_and_usage := fun _ _ group_by => ok (usage groups group_by);
     ce_get_cost_forecast := fun _ _ =>
       ok {| ForecastTotal :=
               Some {| Amount := Some "1200.00"; Unit := Some "USD" |} |};
     requests_get := fun _ => fx;
     requests_post := fun _ _ => inr {| status_code := 200; json_body := None |} |}.

(** The account "prod" with the seven categories. *)
Definition example_world (t : date) (url : option string)
    (fx : string + Response) : world :=
  account_world t url fx (ok {| Account := Some "123456789012" |}) example_groups.

Definition mid_month : date := Date 2024 3 15.
Definition first_day : date := Date 2024 3 1.

(** The run of 15 March 2024 with no webhook configured. *)
Definition example_run : world := example_world mid_month None (inr example_ticker).

Definition example_dates : Dates :=
  {| today := "2024-03-15";
     yesterday := "2024-03-14";
     start_of_next_month := "2024-04-01";
     start_date := "2024-03-01";
     is_first_day := false |}.


(** The same run with a ticker that answers 200 with the JSON array []. *)
Definition array_ticker_run : world :=
  example_world mid_month None
    (inr {| status_code := 200; json_body := Some (PList []) |}).

(** A run in which the identity service denies access. *)
Definition denied_identity_run : world :=
  account_world mid_month None (inr example_ticker)
    (throw ClientError "AccessDenied") example_groups.

(** A run whose grouped response has a group with an empty "Keys" list. *)
Definition keyless_groups : list CostItem :=
  [group "EC2" "100.5"; {| Keys := Some []; Metrics_ := Some (usd "3") |}].

Definition keyless_run : world :=
  account_world mid_month None (inr example_ticker)
    (ok {| Account := Some "123456789012" |}) keyless_groups.

(** 150.0 yen to the dollar, and a credit of one cent. *)
Definition rate_150 : float := Float64.of_decimal 1500 1.
Definition minus_one_cent : float := Float64.of_decimal (-1) 2.

(** The texts a trace writes to standard output. *)
Definition printed (t : list event) : list string :=
  flat_map (fun ev => match ev with EvPrint text => [text] | _ => [] end) t.

(** [w] with other answers of the Cost Explorer. *)
Definition with_cost_explorer (w : world)
    (usage_answer : string -> string -> bool -> result CostAndUsage)
    (forecast_answer : string -> string -> result CostForecast) : world :=
  {| date_today := date_today w;
     getenv_SLACK_WEBHOOK_URL := getenv_SLACK_WEBHOOK_URL w;
     boto3_client := boto3_client w;
     sts_get_caller_identity := sts_get_caller_identity w;
     iam_list_account_aliases := iam_list_account_aliases w;
     ce_get_cost_and_usage := usage_answer;
     ce_get_cost_forecast := forecast_answer;
     requests_get := requests_get w;
     requests_post := requests_post w |}.

(** Runs of 15 March 2024 in which the Cost Explorer answers without
    "ResultsByTime", is throttled, or forecasts without a total. *)
Definition no_results_run : world :=
  with_cost_explorer example_run
    (fun _ _ _ => ok {| ResultsByTime := None |})
    (ce_get_cost_forecast example_run).

Definition throttled_run : world :=
  with_cost_explorer example_run
    (fun _ _ _ => throw ClientError "ThrottlingException")
    (fun _ _ => throw ClientError "ThrottlingException").

Definition no_forecast_total_run : world :=
  with_cost_explorer example_run
    (ce_get_cost_and_usage example_run)
    (fun _ _ => ok {| ForecastTotal := None |}).

(** A grouped response with a group that has no "Metrics". *)
Definition unpriced_groups : list CostItem :=
  [group "EC2" "100.5"; {| Keys := Some ["S3"]; Metrics_ := None |}].

Definition unpriced_run : world :=
  account_world mid_month None (inr example_ticker)
    (ok {| Account := Some "123456789012" |}) unpriced_groups.

(** Runs in which the request to the ticker times out, the ticker quotes
    USD/JPY at "n/a", and the ticker quotes it at "nan". *)
Definition timeout_run : world :=
  example_world mid_month None (inl "Read timed out.").

Definition unquoted_run : world :=
  example_world mid_month None
    (inr {| status_code := 200;
            json_body := Some (ticker [("USD_JPY", "n/a")]) |}).

Definition nan_ticker_run : world :=
  example_world mid_month None
    (inr {| status_code := 200;
            json_body := Some (ticker [("USD_JPY", "nan")]) |}).

(** The reader of decimal literals extended with the literal "nan". *)
Definition nan_float_of_str (s : string) : option float :=
  if String.eqb s "nan" then Some S754_nan else decimal_float_of_str s.

(** The first day of the year. *)
Definition new_year : date := Date 2025 1 1.

(* ================================================================= *)
(** * The handler *)

Section Handler.

Local Open Scope M_scope.

(** [float(s)] for a string [s]: the binary64 number it denotes, or [None]
    where Python raises [ValueError]. *)
Variable float_of_str : string -> option float.

(** [str(x)] for a float, as an f-string prints [{x}]. *)
Variable str_of_float : float -> string.

Definition float_str (s : string) : result float :=
  match float_of_str s with
  | Some f => ok f
  | None => throw ValueError ("could not convert string to float: '" ++ s ++ "'")
  end.

(** [float(v)] for an object. *)
Definition py_float (v : pyval) : result float :=
  match v with
  | PFloat f => ok f
  | PInt z => Float64.of_Z z
  | PBool b => Float64.of_Z (if b then 1 else 0)
  | PStr s => float_str s
  | _ => throw TypeError
           ("float() argument must be a string or a real number, not '"
              ++ type_name v ++ "'")
  end.

(** [float(d.get("Amount", 0))] where [d] is a metric value of the
    billing API or the default [{}]. *)
Definition float_amount (amount : option string) : result float :=
  match amount with
  | Some s => float_str s
  | None => Float64.of_Z 0
  end.

Definition get_account_info : M (string * string) :=
  client "sts" ;;
  identity <- call EvGetCallerIdentity sts_get_caller_identity ;;
  account_id <- lift (getitem (Account identity) "Account") ;;
  client "iam" ;;
  response <- call EvListAccountAliases iam_list_account_aliases ;;
  aliases <- lift (getitem (AccountAliases response) "AccountAliases") ;;
  let account_alias := match aliases with a :: _ => a | [] => "N/A" end in
  ret (account_id, account_alias).

Definition get_dates : M Dates :=
  fun w =>
  (let today := date_today w in
   yesterday <- lift (sub_one_day today) ;;
   '(is_first_day, start_date) <-
     (if day today =? 1 then
        first <- lift (replace_day today 1) ;;
        prev_month <- lift (sub_one_day first) ;;
        start_of_prev_month <- lift (replace_day prev_month 1) ;;
        ret (true, start_of_prev_month)
      else
        start_of_month <- lift (replace_day today 1) ;;
        ret (false, start_of_month)) ;;
   last_day <- lift (monthrange_days (year today) (month today)) ;;
   end_of_month <- lift (replace_day today last_day) ;;
   start_of_next_month <- lift (add_one_day end_of_month) ;;
   ret {| today := strftime today;
          yesterday := strftime yesterday;
          start_of_next_month := strftime start_of_next_month;
          start_date := strftime start_date;
          is_first_day := is_first_day |}) w.

Definition get_aws_cost_usage (start_date end_date : string) (group_by : bool)
  : M CostAndUsage :=
  client "ce" ;;
  logger_info
    ("Calling cost and usage API from " ++ start_date ++ " to " ++ end_date) ;;
  try_except
    (response <- call (EvGetCostAndUsage start_date end_date group_by)
                      (fun w => ce_get_cost_and_usage w start_date end_date group_by) ;;
     logger_info "Successfully retrieved cost and usage data from AWS" ;;
     ret response)
    (fun e => isinstance e [BotoCoreError; ClientError])
    (fun error =>
       logger_error
         ("Failed to retrieve cost and usage data from AWS: " ++ exn_str error) ;;
       raise error).

Definition get_aws_cost_forecast (start_date end_date : string)
  : M CostForecast :=
  client "ce" ;;
  logger_info
    ("Calling cost forecast API from " ++ start_date ++ " to " ++ end_date) ;;
  try_except
    (response <- call (EvGetCostForecast start_date end_date)
                      (fun w => ce_get_cost_forecast w start_date end_date) ;;
     logger_info "Successfully retrieved cost forecast from AWS" ;;
     ret response)
    (fun e => isinstance e [BotoCoreError; ClientError])
    (fun error =>
       logger_error
         ("Failed to retrieve cost forecast from AWS: " ++ exn_str error) ;;
       raise error).

(** [next((x for x in items if x.get("symbol") == "USD_JPY"), None)]: the
    generator stops at the first match, and an item without a [get]
    method raises when it is reached. *)
Fixpoint next_usd_jpy (items : list pyval) : result pyval :=
  match items with
  | [] => ok PNone
  | x :: rest =>
      (symbol <- py_get x "symbol" PNone ;;
       if py_eq_str symbol "USD_JPY" then ok x else next_usd_jpy rest)%res
  end.

Definition get_exchange_rate : M float :=
  try_except
    (response <- call (EvGet GMOCOIN_API_ENDPOINT)
                      (fun w => as_request_exception
                                  (requests_get w GMOCOIN_API_ENDPOINT)) ;;
     lift (raise_for_status response) ;;
     data <- lift (json response) ;;
     status <- lift (py_get data "status" PNone) ;;
     (if py_ne_zero status
      then raise (Exn ValueError "Invalid response status")
      else ret tt) ;;
     records <- lift (py_get data "data" (PList [])) ;;
     items <- lift (py_iter records) ;;
     usd_jpy_data <- lift (next_usd_jpy items) ;;
     rate <- (if py_truthy usd_jpy_data
              then ask <- lift (py_get usd_jpy_data "ask" PNone) ;;
                   lift (py_float ask)
              else ret DEFAULT_EXCHANGE_RATE) ;;
     logger_info ("Successfully retrieved exchange rate: " ++ str_of_float rate) ;;
     ret rate)
    (fun e => isinstance e [RequestException; ValueError; TypeError])
    (fun error =>
       logger_error
         ("Failed to retrieve exchange rate, using default: " ++ exn_str error) ;;
       ret DEFAULT_EXCHANGE_RATE).

(** [int(rate * amount)]. *)
Definition convert_usd_to_jpy (rate amount : float) : result Z :=
  Float64.to_int (Float64.mul rate amount).

(** [response.get("ResultsByTime", [{}])[0]]. *)
Definition first_result (response : CostAndUsage) : result ResultByTime :=
  match ResultsByTime response with
  | None => ok {| Total := None; Groups := None |}
  | Some [] => throw IndexError "list index out of range"
  | Some (r :: _) => ok r
  end.

(** [cost.get("Keys")[0]]. *)
Definition first_key (cost : CostItem) : result string :=
  match Keys cost with
  | None => throw TypeError "'NoneType' object is not subscriptable"
  | Some [] => throw IndexError "list index out of range"
  | Some (k :: _) => ok k
  end.

(** [[cost for cost in costs if cost.get("Keys")[0] != "Tax"]]. *)
Fixpoint without_tax (costs : list CostItem) : result (list CostItem) :=
  match costs with
  | [] => ok []
  | cost :: rest =>
      (k <- first_key cost ;;
       kept <- without_tax rest ;;
       ok (if String.eqb k "Tax" then kept else cost :: kept))%res
  end.

(** The sort key [float(x["Metrics"]["UnblendedCost"]["Amount"])]. *)
Definition amount_key (x : CostItem) : result float :=
  (metrics <- getitem (Metrics_ x) "Metrics" ;;
   cost <- getitem (assoc "UnblendedCost" metrics) "UnblendedCost" ;;
   amount <- getitem (Amount cost) "Amount" ;;
   float_str amount)%res.

(** [sorted] computes the key of every item, in order, before it sorts. *)
Fixpoint decorate (costs : list CostItem) : result (list (float * CostItem)) :=
  match costs with
  | [] => ok []
  | x :: rest =>
      (k <- amount_key x ;;
       ks <- decorate rest ;;
       ok ((k, x) :: ks))%res
  end.

(** Stable insertion by descending key, with the one comparison [<] that
    [list.sort] uses: [x] goes behind the items whose key is greater and
    in front of the first one whose key is not. *)
Fixpoint insert_desc {A} (x : float * A) (l : list (float * A))
  : list (float * A) :=
  match l with
  | [] => [x]
  | y :: l' =>
      if Float64.ltb (fst x) (fst y) then y :: insert_desc x l' else x :: l
  end.

(** [sorted(costs, key=..., reverse=True)] on decorated items.  With
    [reverse=True] the sort stays stable, and on keys that [<] orders
    totally every stable sort returns this list. *)
Definition sorted_reverse {A} (l : list (float * A)) : list A :=
  map snd (fold_right insert_desc [] l).

(** [r.get("Total", {}).get("UnblendedCost", {}).get("Amount", 0)]. *)
Definition total_amount (r : ResultByTime) : option string :=
  match Total r with
  | None => None
  | Some metrics =>
      match assoc "UnblendedCost" metrics with
      | None => None
      | Some cost => Amount cost
      end
  end.

Definition get_cost_data (dates : Dates) (include_tax : bool)
  : M (float * list CostItem) :=
  try_except
    (usage_by_services <-
       get_aws_cost_usage (start_date dates) (today dates) true ;;
     total_usage <- get_aws_cost_usage (start_date dates) (today dates) false ;;
     by_time <- lift (first_result usage_by_services) ;;
     let costs := match Groups by_time with Some g => g | None => [] end in
     costs <- (if negb include_tax then lift (without_tax costs) else ret costs) ;;
     decorated <- lift (decorate costs) ;;
     let top5_costs := firstn 5 (sorted_reverse decorated) in
     total_by_time <- lift (first_result total_usage) ;;
     total_cost_usd <- lift (float_amount (total_amount total_by_time)) ;;
     ret (total_cost_usd, top5_costs))
    Exception
    (fun error =>
       logger_error ("Failed to get cost data: " ++ exn_str error) ;;
       raise error).

Definition get_forecast_data (dates : Dates) (total_cost_usd : float) : M float :=
  if is_first_day dates then
    logger_info "First day of the month, using total cost as forecast" ;;
    ret total_cost_usd
  else
    try_except
      (forecast_response <-
         get_aws_cost_forecast (today dates) (start_of_next_month dates) ;;
       lift (float_amount
               (match ForecastTotal forecast_response with
                | Some total => Amount total
                | None => None
                end)))
      Exception
      (fun error =>
         logger_error ("Failed to get forecast data: " ++ exn_str error) ;;
         raise error).

(** The loop [for i, cost in enumerate(top5_costs, start=1)] that appends
    one line per item to [message]. *)
Fixpoint format_top5 (i : Z) (top5_costs : list CostItem) (message : string)
  : result string :=
  match top5_costs with
  | [] => ok message
  | cost :: rest =>
      (amount <- float_amount
                   (match Metrics_ cost with
                    | None => None
                    | Some metrics =>
                        match assoc "UnblendedCost" metrics with
                        | None => None
                        | Some c => Amount c
                        end
                    end) ;;
       service <- first_key cost ;;
       format_top5 (i + 1) rest
         (message ++ digits i ++ ". " ++ format_float_2f true amount
                  ++ " USD: " ++ service ++ nl))%res
  end.

Definition format_cost_message
    (account_id account_alias display_start_date display_end_date : string)
    (total_cost_usd : float) (total_cost_jpy : Z)
    (forecast_cost_usd : float) (forecast_cost_jpy : Z)
    (exchange_rate : float) (top5_costs : list CostItem) : result string :=
  let message :=
    nl ++
    "アカウント: " ++ account_alias ++ " (" ++ account_id ++ ")" ++ nl ++
    "期間: " ++ display_start_date ++ " - " ++ display_end_date ++ nl ++
    nl ++
    "利用額: " ++ format_float_2f true total_cost_usd ++ " USD / "
      ++ format_int_grouped total_cost_jpy ++ " 円" ++ nl ++
    "予想金額: " ++ format_float_2f true forecast_cost_usd ++ " USD / "
      ++ format_int_grouped forecast_cost_jpy ++ " 円" ++ nl ++
    "* 為替レート: 1 USD = " ++ format_float_2f false exchange_rate ++ " 円" ++ nl ++
    nl ++
    "Top5:" ++ nl in
  format_top5 1 top5_costs message.

Definition send_message_to_slack (message : string) : M unit :=
  fun w =>
  (match getenv_SLACK_WEBHOOK_URL w with
   | Some url =>
       if negb (String.eqb url "") then
         try_except
           (response <-
              call (EvPost url (PDict [("text", PStr message)]))
                   (fun w => as_request_exception
                               (requests_post w url (PDict [("text", PStr message)]))) ;;
            lift (raise_for_status response) ;;
            logger_info "Successfully sent message to Slack")
           (fun e => isinstance e [RequestException])
           (fun error =>
              logger_error ("Failed to send message to Slack: " ++ exn_str error))
       else
         logger_info "SLACK_WEBHOOK_URL not set, printing message to console" ;;
         print message
   | None =>
       logger_info "SLACK_WEBHOOK_URL not set, printing message to console" ;;
       print message
   end) w.

(** The [try] block of [main]. *)
Definition main_try (event : pyval) : M unit :=
  include_tax <- lift (py_get event "include_tax" (PBool false)) ;;
  dates <- get_dates ;;
  '(account_id, account_alias) <- get_account_info ;;
  '(total_cost_usd, top5_costs) <- get_cost_data dates (py_truthy include_tax) ;;
  exchange_rate <- get_exchange_rate ;;
  total_cost_jpy <- lift (convert_usd_to_jpy exchange_rate total_cost_usd) ;;
  forecast_cost_usd <- get_forecast_data dates total_cost_usd ;;
  forecast_cost_jpy <- lift (convert_usd_to_jpy exchange_rate forecast_cost_usd) ;;
  message <- lift (format_cost_message
                     account_id account_alias
                     (start_date dates) (yesterday dates)
                     total_cost_usd total_cost_jpy
                     forecast_cost_usd forecast_cost_jpy
                     exchange_rate top5_costs) ;;
  send_message_to_slack message ;;
  logger_info "Script completed successfully".

Definition main (event context : pyval) : M unit :=
  try_except
    (main_try event)
    Exception
    (fun error =>
       logger_error
         ("An error occurred during script execution: " ++ exn_str error)).

(* ================================================================= *)
(** * Specification vocabulary *)

(** The conversion as the specification words it: [floor(rate * amount)]. *)
Definition spec_floor_convert (rate amount : float) : option Z :=
  Float64.floor (Float64.mul rate amount).

(** The dates the specification names. *)
Definition first_of_month (t : date) : date := Date (year t) (month t) 1.

Definition first_of_previous_month (t : date) : date :=
  if month t =? 1 then Date (year t - 1) 12 1
  else Date (year t) (month t - 1) 1.

Definition first_of_next_month (t : date) : date :=
  if month t =? 12 then Date (year t + 1) 1 1
  else Date (year t) (month t + 1) 1.

Definition last_of_month (t : date) : date :=
  Date (year t) (month t) (days_in_month (year t) (month t)).

(** The first day of the billing window of a run on the date [t]. *)
Definition window_start (t : date) : date :=
  if day t =? 1 then first_of_previous_month t else first_of_month t.

(** The dates for which [datetime] has a day before and a first day of the
    next month: every date of the type but 0001-01-01 and December 9999. *)
Definition has_neighbours (t : date) : Prop :=
  t <> Date MINYEAR 1 1 /\ ~ (year t = MAXYEAR /\ month t = 12).







(** The category of an item is "Tax". *)
Definition is_tax (x : CostItem) : bool :=
  match Keys x with
  | Some (k :: _) => String.eqb k "Tax"
  | _ => false
  end.

Definition has_first_key (x : CostItem) : Prop :=
  exists k ks, Keys x = Some (k :: ks).

(** The item has no category to read: ["Keys"] is missing or empty. *)
Definition lacks_first_key (x : CostItem) : Prop :=
  Keys x = None \/ Keys x = Some [].


(** The "symbol" of a record of the ticker is [pair]; and a record that is
    an object and quotes some other pair than USD/JPY. *)
Definition symbol_is (x : pyval) (pair : string) : bool :=
  match x with
  | PDict d =>
      py_eq_str (match assoc "symbol" d with Some v => v | None => PNone end) pair
  | _ => false
  end.

Definition other_pair (x : pyval) : Prop :=
  (exists d, x = PDict d) /\ symbol_is x "USD_JPY" = false.

(** The events that deliver the report. *)
Definition is_notification (ev : event) : bool :=
  match ev with
  | EvPost _ _ | EvPrint _ => true
  | _ => false
  end.

Definition notifications (t : list event) : list event :=
  filter is_notification t.

(** The forecast queries of a trace, as (start, end) pairs. *)
Fixpoint forecast_queries (t : list event) : list (string * string) :=
  match t with
  | [] => []
  | EvGetCostForecast s e :: t' => (s, e) :: forecast_queries t'
  | _ :: t' => forecast_queries t'
  end.

(** The exception [e] is raised by the identity, the billing or the
    forecast step of the run of [main] on [event]: the steps before it
    returned, and the step raised [e]. *)
Inductive fatal_step (w : world) (event : pyval) (e : exn) : Prop :=
| identity_fails include_tax dates t0 t1 :
    py_get event "include_tax" (PBool false) = ok include_tax ->
    get_dates w = (inr dates, t0) ->
    get_account_info w = (inl e, t1) ->
    fatal_step w event e
| billing_fails include_tax dates t0 account t1 t2 :
    py_get event "include_tax" (PBool false) = ok include_tax ->
    get_dates w = (inr dates, t0) ->
    get_account_info w = (inr account, t1) ->
    get_cost_data dates (py_truthy include_tax) w = (inl e, t2) ->
    fatal_step w event e
| forecast_fails include_tax dates t0 account t1 total top5 t2 rate t3 jpy t4 :
    py_get event "include_tax" (PBool false) = ok include_tax ->
    get_dates w = (inr dates, t0) ->
    get_account_info w = (inr account, t1) ->
    get_cost_data dates (py_truthy include_tax) w = (inr (total, top5), t2) ->
    get_exchange_rate w = (inr rate, t3) ->
    convert_usd_to_jpy rate total = ok jpy ->
    get_forecast_data dates total w = (inl e, t4) ->
    fatal_step w event e.

(** The event [ev] delivers the text [message]: printed, or posted to a
    webhook as the JSON object with the single field "text". *)
Definition delivers (ev : event) (message : string) : Prop :=
  ev = EvPrint message \/
  exists url, ev = EvPost url (PDict [("text", PStr message)]).

(** A computation that has delivered nothing whenever it raises. *)
Definition silent_failure {A} (m : M A) : Prop :=
  forall w e t, m w = (inl e, t) -> notifications t = [].

(** A computation that delivers nothing. *)
Definition quiet {A} (m : M A) : Prop :=
  forall w, notifications (snd (m w)) = [].

(** What [get_exchange_rate] makes of the outcome of its request: the
    steps of its [try] block between the request and the log line, which
    perform no event. *)
Definition read_ticker (outcome : string + Response) : result float :=
  (response <- as_request_exception outcome ;;
   _ <- raise_for_status response ;;
   data <- json response ;;
   status <- py_get data "status" PNone ;;
   _ <- (if py_ne_zero status
         then throw ValueError "Invalid response status"
         else ok tt) ;;
   records <- py_get data "data" (PList []) ;;
   items <- py_iter records ;;
   usd_jpy_data <- next_usd_jpy items ;;
   if py_truthy usd_jpy_data
   then (ask <- py_get usd_jpy_data "ask" PNone ;; py_float ask)
   else ok DEFAULT_EXCHANGE_RATE)%res.

(** The groups that the ranking of [get_cost_data] is taken from: all the
    groups, or the ones not in the "Tax" category. *)
Definition ranked_groups (include_tax : bool) (groups : list CostItem)
  : list CostItem :=
  if include_tax then groups else filter (fun x => negb (is_tax x)) groups.

(** The item has no sort key: [amount_key] raises on it. *)
Definition unpriced (x : CostItem) : Prop := exists e, amount_key x = inl e.

(** [cost.get("Metrics", {}).get("UnblendedCost", {}).get("Amount", 0)],
    the amount the report prints for an item. *)
Definition item_amount (cost : CostItem) : option string :=
  match Metrics_ cost with
  | None => None
  | Some metrics =>
      match assoc "UnblendedCost" metrics with
      | None => None
      | Some c => Amount c
      end
  end.

(** The item can be printed as the [row] (amount, service): its amount, 0
    when it has none, reads as a float, and it has a first key. *)
Definition printable (x : CostItem) (row : float * string) : Prop :=
  float_amount (item_amount x) = ok (fst row) /\ first_key x = ok (snd row).

(** The numbered lines of the report for the rows, counting from [i]. *)
Fixpoint report_lines (i : Z) (rows : list (float * string)) : string :=
  match rows with
  | [] => ""
  | (amount, service) :: rest =>
      (digits i ++ ". " ++ format_float_2f true amount ++ " USD: "
         ++ service ++ nl) ++ report_lines (i + 1) rest
  end.

(** The requests that [main] sends after the billing step: the FX ticker
    and the forecast. *)
Definition is_fx_or_forecast (ev : event) : bool :=
  match ev with
  | EvGet _ | EvGetCostForecast _ _ => true
  | _ => false
  end.

(** A computation none of whose events satisfies [p]. *)
Definition without {A} (p : event -> bool) (m : M A) : Prop :=
  forall w, filter p (snd (m w)) = [].

(* ================================================================= *)
(** * Order of floats *)









(* ================================================================= *)
(** * The stable descending sort *)

Section Sorting.

Context {A : Type}.

Lemma insert_desc_perm (x : float * A) l : Permutation (insert_desc x l) (x :: l).
Proof.
  induction l as [|y l IH]; simpl.
  - apply Permutation_refl.
  - destruct (Float64.ltb (fst x) (fst y)).
    + apply perm_trans with (y :: x :: l).
      * now apply perm_skip.
      * apply perm_swap.
    + apply Permutation_refl.
Qed.

Lemma sort_desc_perm (l : list (float * A)) :
  Permutation (fold_right insert_desc [] l) l.
Proof.
  induction l as [|x l IH]; simpl.
  - apply perm_nil.
  - eapply perm_trans; [apply insert_desc_perm|]. now apply perm_skip.
Qed.





End Sorting.

(* ================================================================= *)
(** * Calendar facts *)

Ltac red_ok := cbv beta iota delta [ok].

Tactic Notation "red_ok" "in" hyp(H) := cbv beta iota delta [ok] in H.

Ltac zbool :=
  repeat match goal with
  | |- context [?a <? ?b] => destruct (Z.ltb_spec a b)
  | |- context [?a <=? ?b] => destruct (Z.leb_spec a b)
  | |- context [?a =? ?b] => destruct (Z.eqb_spec a b)
  end.

Lemma days_in_month_bounds (y m : Z) : 28 <= days_in_month y m <= 31.
Proof.
  unfold days_in_month. destruct (isleap y); zbool; simpl; lia.
Qed.

Lemma valid_date_spec (d : date) :
  valid_date d <->
  MINYEAR <= year d <= MAXYEAR /\ 1 <= month d <= 12 /\
  1 <= day d <= days_in_month (year d) (month d).
Proof.
  unfold valid_date, valid_dateb.
  rewrite !andb_true_iff, !Z.leb_le. tauto.
Qed.

Lemma date_ltb_spec (a b : date) :
  date_ltb a b = true <->
  year a < year b \/
  (year a = year b /\
   (month a < month b \/ (month a = month b /\ day a < day b))).
Proof.
  unfold date_ltb.
  rewrite !orb_true_iff, !andb_true_iff, !orb_true_iff, !andb_true_iff,
    !Z.ltb_lt, !Z.eqb_eq.
  tauto.
Qed.

Lemma date_lt_spec (a b : date) :
  date_lt a b <->
  year a < year b \/
  (year a = year b /\
   (month a < month b \/ (month a = month b /\ day a < day b))).
Proof. apply date_ltb_spec. Qed.

Lemma date_le_spec (a b : date) :
  date_le a b <->
  year a < year b \/
  (year a = year b /\
   (month a < month b \/ (month a = month b /\ day a <= day b))).
Proof.
  unfold date_le, date_leb. rewrite negb_true_iff, <- not_true_iff_false.
  rewrite date_ltb_spec. lia.
Qed.

Lemma replace_day_first (t : date) : replace_day t 1 = ok (first_of_month t).
Proof.
  unfold replace_day. pose proof (days_in_month_bounds (year t) (month t)).
  zbool; try lia. reflexivity.
Qed.

Lemma replace_day_last (t : date) :
  replace_day t (days_in_month (year t) (month t)) = ok (last_of_month t).
Proof.
  unfold replace_day. pose proof (days_in_month_bounds (year t) (month t)).
  zbool; try lia. reflexivity.
Qed.

Lemma monthrange_days_valid (t : date) :
  valid_date t ->
  monthrange_days (year t) (month t) = ok (days_in_month (year t) (month t)).
Proof.
  intros V. apply valid_date_spec in V. unfold monthrange_days.
  zbool; try lia. reflexivity.
Qed.

Lemma add_one_day_last (t : date) :
  valid_date t -> ~ (year t = MAXYEAR /\ month t = 12) ->
  add_one_day (last_of_month t) = ok (first_of_next_month t).
Proof.
  intros V N. apply valid_date_spec in V.
  unfold add_one_day, last_of_month, first_of_next_month. cbn [year month day].
  zbool; try lia; reflexivity.
Qed.

Lemma sub_one_day_first_of_month (t : date) :
  valid_date t -> t <> Date MINYEAR 1 1 -> day t = 1 ->
  exists p, sub_one_day (first_of_month t) = ok p /\
            replace_day p 1 = ok (first_of_previous_month t).
Proof.
  intros V N D. apply valid_date_spec in V.
  unfold sub_one_day, first_of_month, first_of_previous_month.
  cbn [year month day].
  destruct (Z.ltb_spec 1 1); [lia|].
  destruct (Z.ltb_spec 1 (month t)).
  - eexists. split; [reflexivity|].
    rewrite replace_day_first. unfold first_of_month. cbn [year month day].
    destruct (Z.eqb_spec (month t) 1); [lia|reflexivity].
  - destruct (Z.ltb_spec MINYEAR (year t)).
    + eexists. split; [reflexivity|].
      rewrite replace_day_first. unfold first_of_month. cbn [year month day].
      destruct (Z.eqb_spec (month t) 1); [reflexivity|lia].
    + exfalso. apply N. destruct t as [y m d]. cbn [year month day] in *.
      f_equal; lia.
Qed.

Lemma sub_one_day_valid (t : date) :
  valid_date t -> t <> Date MINYEAR 1 1 ->
  exists y, sub_one_day t = ok y /\ valid_date y.
Proof.
  intros V N. apply valid_date_spec in V. unfold sub_one_day.
  destruct (Z.ltb_spec 1 (day t)).
  - eexists. split; [reflexivity|]. apply valid_date_spec.
    cbn [year month day]. lia.
  - destruct (Z.ltb_spec 1 (month t)).
    + eexists. split; [reflexivity|]. apply valid_date_spec.
      cbn [year month day].
      pose proof (days_in_month_bounds (year t) (month t - 1)). lia.
    + destruct (Z.ltb_spec MINYEAR (year t)).
      * eexists. split; [reflexivity|]. apply valid_date_spec.
        cbn [year month day]. unfold MINYEAR, MAXYEAR in *.
        change (days_in_month (year t - 1) 12) with 31. lia.
      * exfalso. apply N. destruct t as [y m d]. cbn [year month day] in *.
        unfold MINYEAR in *. f_equal; lia.
Qed.

(** The day before [t] is the last day strictly before [t]. *)
Lemma date_le_day_before (x t y : date) :
  valid_date x -> valid_date t -> sub_one_day t = ok y ->
  (date_le x y <-> date_lt x t).
Proof.
  intros Vx Vt S. apply valid_date_spec in Vx, Vt.
  rewrite date_le_spec, date_lt_spec.
  unfold sub_one_day in S.
  destruct (Z.ltb_spec 1 (day t)).
  { injection S as <-. cbn [year month day]. lia. }
  destruct (Z.ltb_spec 1 (month t)).
  { injection S as <-. cbn [year month day].
    destruct (Z.eq_dec (year x) (year t)) as [Ey|Ey];
      destruct (Z.eq_dec (month x) (month t - 1)) as [Em|Em];
      try lia.
    rewrite Ey, Em in Vx. lia. }
  destruct (Z.ltb_spec MINYEAR (year t)); [|discriminate].
  injection S as <-. cbn [year month day].
  assert (days_in_month (year x) 12 = 31) by reflexivity.
  destruct (Z.eq_dec (month x) 12) as [Em|Em]; [rewrite Em in Vx|]; lia.
Qed.

(** The outcome of [get_dates] on a date that has both neighbours. *)
Lemma get_dates_run (w : world) :
  valid_date (date_today w) -> has_neighbours (date_today w) ->
  exists y,
    sub_one_day (date_today w) = ok y /\
    get_dates w =
      (inr {| today := strftime (date_today w);
              yesterday := strftime y;
              start_of_next_month := strftime (first_of_next_month (date_today w));
              start_date := strftime (window_start (date_today w));
              is_first_day := (day (date_today w) =? 1) |}, []).
Proof.
  intros V [N1 N2].
  destruct (sub_one_day_valid V N1) as (y & Hy & _).
  exists y. split; [exact Hy|].
  unfold get_dates, window_start, bind, lift, ret. rewrite Hy. red_ok.
  destruct (Z.eqb_spec (day (date_today w)) 1) as [D|D].
  - rewrite replace_day_first. red_ok.
    destruct (sub_one_day_first_of_month V N1 D) as (p & Hp & Hr).
    rewrite Hp. red_ok. rewrite Hr. red_ok.
    rewrite (monthrange_days_valid V). red_ok.
    rewrite replace_day_last. red_ok.
    rewrite (add_one_day_last V N2). reflexivity.
  - rewrite replace_day_first. red_ok.
    rewrite (monthrange_days_valid V). red_ok.
    rewrite replace_day_last. red_ok.
    rewrite (add_one_day_last V N2). reflexivity.
Qed.

(* ================================================================= *)
(** * Running computations *)

Lemma try_except_ok {A} (body : M A) caught handler (w : world) a t :
  body w = (inr a, t) -> try_except body caught handler w = (inr a, t).
Proof. intros H. unfold try_except. now rewrite H. Qed.

Lemma notifications_app (t1 t2 : list event) :
  notifications (t1 ++ t2) = (notifications t1 ++ notifications t2)%list.
Proof. apply filter_app. Qed.

Lemma quiet_ret {A} (a : A) : quiet (ret a).
Proof. now intros w. Qed.

Lemma quiet_raise {A} (e : exn) : quiet (@raise A e).
Proof. now intros w. Qed.

Lemma quiet_lift {A} (r : result A) : quiet (lift r).
Proof. now intros w. Qed.

Lemma quiet_emit (ev : event) : is_notification ev = false -> quiet (emit ev).
Proof. intros H w. unfold emit, notifications. simpl. now rewrite H. Qed.

Lemma quiet_call {A} (ev : event) (outcome : world -> result A) :
  is_notification ev = false -> quiet (call ev outcome).
Proof. intros H w. unfold call, notifications. simpl. now rewrite H. Qed.

Lemma quiet_bind {A B} (m : M A) (f : A -> M B) :
  quiet m -> (forall a, quiet (f a)) -> quiet (bind m f).
Proof.
  intros Hm Hf w. unfold bind. specialize (Hm w).
  destruct (m w) as [[e|a] t]; [exact Hm|].
  specialize (Hf a w). destruct (f a w) as [r t']. simpl in *.
  now rewrite notifications_app, Hm, Hf.
Qed.

Lemma quiet_try_except {A} (body : M A) caught handler :
  quiet body -> (forall e, quiet (handler e)) ->
  quiet (try_except body caught handler).
Proof.
  intros Hb Hh w. unfold try_except. specialize (Hb w).
  destruct (body w) as [[e|a] t]; [|exact Hb].
  destruct (caught e); [|exact Hb].
  specialize (Hh e w). destruct (handler e w) as [r t']. simpl in *.
  now rewrite notifications_app, Hb, Hh.
Qed.

Ltac quiet_step :=
  first
    [ apply quiet_ret | apply quiet_raise | apply quiet_lift
    | apply quiet_emit; reflexivity | apply quiet_call; reflexivity
    | apply quiet_bind; [|intros ?]
    | apply quiet_try_except; [|intros ?] ].

Ltac quiet_auto :=
  repeat first
    [ quiet_step
    | match goal with
      | |- quiet (if ?b then _ else _) => destruct b
      | |- quiet (match ?x with _ => _ end) => destruct x
      end ].

Lemma get_account_info_quiet : quiet get_account_info.
Proof.
  unfold get_account_info, client, logger_info, logger_error. quiet_auto.
Qed.

Lemma get_dates_quiet : quiet get_dates.
Proof.
  intros w. unfold get_dates. generalize (date_today w). intros t.
  revert w.
  match goal with |- forall w, notifications (snd (?m w)) = [] => change (quiet m) end.
  quiet_auto.
Qed.

Lemma get_aws_cost_usage_quiet s e g : quiet (get_aws_cost_usage s e g).
Proof.
  unfold get_aws_cost_usage, client, logger_info, logger_error. quiet_auto.
Qed.

Lemma get_aws_cost_forecast_quiet s e : quiet (get_aws_cost_forecast s e).
Proof.
  unfold get_aws_cost_forecast, client, logger_info, logger_error. quiet_auto.
Qed.

Lemma get_exchange_rate_quiet : quiet get_exchange_rate.
Proof.
  unfold get_exchange_rate, logger_info, logger_error. quiet_auto.
Qed.

Lemma get_cost_data_quiet dates include_tax : quiet (get_cost_data dates include_tax).
Proof.
  unfold get_cost_data, logger_info, logger_error.
  quiet_auto; apply get_aws_cost_usage_quiet.
Qed.

Lemma get_forecast_data_quiet dates total : quiet (get_forecast_data dates total).
Proof.
  unfold get_forecast_data, logger_info, logger_error.
  quiet_auto; apply get_aws_cost_forecast_quiet.
Qed.

(** The four events of a billing query that succeeds. *)
Lemma get_aws_cost_usage_run (w : world) s e g response :
  boto3_client w "ce" = None ->
  ce_get_cost_and_usage w s e g = ok response ->
  get_aws_cost_usage s e g w =
    (inr response,
     [EvClient "ce";
      EvLog INFO ("Calling cost and usage API from " ++ s ++ " to " ++ e);
      EvGetCostAndUsage s e g;
      EvLog INFO "Successfully retrieved cost and usage data from AWS"]).
Proof.
  intros Hc Hr.
  unfold get_aws_cost_usage, try_except, bind, client, call, logger_info, emit, ret.
  rewrite Hc, Hr. reflexivity.
Qed.

(* ================================================================= *)
(** * The Tax filter and the ranking *)

Lemma without_tax_filter (groups : list CostItem) :
  Forall has_first_key groups ->
  without_tax groups = ok (filter (fun x => negb (is_tax x)) groups).
Proof.
  induction 1 as [|x l (k & ks & Hk) Hl IH]; [reflexivity|].
  cbn [without_tax filter]. unfold first_key, is_tax. rewrite Hk, IH.
  cbn. now destruct (String.eqb k "Tax").
Qed.

Lemma without_tax_raises (groups : list CostItem) :
  Exists lacks_first_key groups ->
  exists e, without_tax groups = inl e /\
            (exn_cls e = TypeError \/ exn_cls e = IndexError).
Proof.
  induction groups as [|x l IH]; intros H.
  - inversion H.
  - cbn [without_tax]. unfold first_key.
    destruct (Keys x) as [[|k ks]|] eqn:E.
    + eexists. split; [reflexivity|]. now right.
    + assert (Hl : Exists lacks_first_key l).
      { inversion H as [? ? [Hx|Hx]|]; subst; try congruence; assumption. }
      destruct (IH Hl) as (e & He & Hc). exists e. cbn. rewrite He. now split.
    + eexists. split; [reflexivity|]. now left.
Qed.

Lemma without_tax_returns (groups kept : list CostItem) :
  without_tax groups = ok kept -> Forall has_first_key groups.
Proof.
  revert kept. induction groups as [|x l IH]; intros kept H; [constructor|].
  cbn [without_tax] in H. unfold first_key in H.
  destruct (Keys x) as [[|k ks]|] eqn:E; try discriminate.
  cbn in H. destruct (without_tax l) as [e|kept'] eqn:El; [discriminate|].
  constructor; [now exists k, ks | now apply (IH kept')].
Qed.





Lemma Forall_firstn {A} (P : A -> Prop) (n : nat) (l : list A) :
  Forall P l -> Forall P (firstn n l).
Proof.
  intros H. rewrite <- (firstn_skipn n l) in H.
  now apply Forall_app in H.
Qed.

(** The run of [get_cost_data] when both queries answer and every step of
    the ranking returns. *)
Lemma get_cost_data_run (w : world) (dates : Dates) (include_tax : bool)
    (grouped total : CostAndUsage) (by_time total_by_time : ResultByTime)
    (kept : list CostItem) (decorated : list (float * CostItem))
    (total_cost_usd : float) :
  boto3_client w "ce" = None ->
  ce_get_cost_and_usage w (start_date dates) (today dates) true = ok grouped ->
  ce_get_cost_and_usage w (start_date dates) (today dates) false = ok total ->
  first_result grouped = ok by_time ->
  (if include_tax
   then ok (match Groups by_time with Some g => g | None => [] end)
   else without_tax (match Groups by_time with Some g => g | None => [] end))
    = ok kept ->
  decorate kept = ok decorated ->
  first_result total = ok total_by_time ->
  float_amount (total_amount total_by_time) = ok total_cost_usd ->
  fst (get_cost_data dates include_tax w) =
    inr (total_cost_usd, firstn 5 (sorted_reverse decorated)).
Proof.
  intros Hc Hg Ht Hb Hk Hd Hf Ha.
  unfold get_cost_data, try_except, bind.
  rewrite (get_aws_cost_usage_run _ _ _ _ Hc Hg). cbv beta iota.
  rewrite (get_aws_cost_usage_run _ _ _ _ Hc Ht). cbv beta iota.
  unfold lift. rewrite Hb. red_ok.
  destruct include_tax; cbn [negb]; unfold ret.
  - injection Hk as <-. rewrite Hd. red_ok. rewrite Hf. red_ok.
    rewrite Ha. reflexivity.
  - rewrite Hk. red_ok. rewrite Hd. red_ok. rewrite Hf. red_ok.
    rewrite Ha. reflexivity.
Qed.

(* ================================================================= *)
(** * Properties of the handler *)


(** C9.  The Tax filter reads [cost.get("Keys")[0]] with no guard.  It
    returns exactly when every group carries a non-empty "Keys" list; and
    when [include_tax] is false and some group of the grouped response has
    "Keys" missing or empty, [get_cost_data] raises ([TypeError] for a
    missing list, [IndexError] for an empty one) instead of skipping the
    group. *)
Theorem get_cost_data_unguarded_keys (w : world) (dates : Dates)
    (grouped total : CostAndUsage) (by_time : ResultByTime)
    (groups : list CostItem) :
  ((exists kept, without_tax groups = ok kept) <-> Forall has_first_key groups) /\
  (boto3_client w "ce" = None ->
   ce_get_cost_and_usage w (start_date dates) (today dates) true = ok grouped ->
   ce_get_cost_and_usage w (start_date dates) (today dates) false = ok total ->
   first_result grouped = ok by_time ->
   Groups by_time = Some groups ->
   Exists lacks_first_key groups ->
   exists e, fst (get_cost_data dates false w) = inl e /\
             (exn_cls e = TypeError \/ exn_cls e = IndexError)).
Proof.
  split.
  - split.
    + intros (kept & H). now apply without_tax_returns with kept.
    + intros H. eexists. now apply without_tax_filter.
  - intros Hc Hg Ht Hb HG Hx.
    destruct (without_tax_raises Hx) as (e & He & Hcls).
    exists e. split; [|exact Hcls].
    unfold get_cost_data, try_except, bind.
    rewrite (get_aws_cost_usage_run _ _ _ _ Hc Hg). cbv beta iota.
    rewrite (get_aws_cost_usage_run _ _ _ _ Hc Ht). cbv beta iota.
    unfold lift. rewrite Hb. red_ok. rewrite HG. cbn [negb]. rewrite He.
    reflexivity.
Qed.

(** C2.  On the first day of a month [get_dates] starts the window at the
    first day of the previous month, on any other day at the first day of
    the current month; [start_of_next_month] is the first day of the
    following month, the day after the last day of the current one. *)
Theorem get_dates_window (w : world) :
  valid_date (date_today w) -> has_neighbours (date_today w) ->
  exists d,
    get_dates w = (inr d, []) /\
    is_first_day d = (day (date_today w) =? 1) /\
    (day (date_today w) = 1 ->
     start_date d = strftime (first_of_previous_month (date_today w))) /\
    (day (date_today w) <> 1 ->
     start_date d = strftime (first_of_month (date_today w))) /\
    start_of_next_month d = strftime (first_of_next_month (date_today w)) /\
    add_one_day (last_of_month (date_today w))
      = ok (first_of_next_month (date_today w)).
Proof.
  intros V N. destruct (@get_dates_run w V N) as (y & _ & Hrun).
  eexists. split; [exact Hrun|]. cbn [is_first_day start_date start_of_next_month].
  unfold window_start.
  split; [reflexivity|].
  split; [intros ->; reflexivity|].
  split.
  - intros D. destruct (Z.eqb_spec (day (date_today w)) 1); [contradiction|reflexivity].
  - split; [reflexivity|]. destruct N. now apply add_one_day_last.
Qed.

Lemma window_start_before (t : date) :
  valid_date t -> t <> Date MINYEAR 1 1 ->
  valid_date (window_start t) /\ date_lt (window_start t) t.
Proof.
  intros V N1. pose proof (proj1 (valid_date_spec _) V) as B.
  pose proof (days_in_month_bounds (year t) (month t)).
  unfold window_start.
  destruct (Z.eqb_spec (day t) 1) as [D|D].
  - unfold first_of_previous_month.
    destruct (Z.eqb_spec (month t) 1) as [E|E].
    + assert (MINYEAR < year t).
      { destruct (Z.eq_dec (year t) MINYEAR) as [Y|Y]; [|lia].
        exfalso. apply N1. destruct t as [yy mm dd].
        cbn [year month day] in *. now subst. }
      split; [apply valid_date_spec|apply date_lt_spec]; cbn [year month day].
      * change (days_in_month (year t - 1) 12) with 31. lia.
      * lia.
    + split; [apply valid_date_spec|apply date_lt_spec]; cbn [year month day].
      * pose proof (days_in_month_bounds (year t) (month t - 1)). lia.
      * lia.
  - split; [apply valid_date_spec|apply date_lt_spec];
      unfold first_of_month; cbn [year month day]; lia.
Qed.

(** C6.  The window start that [get_dates] returns is a date strictly
    before today, so the half-open billing window from [start_date] to
    [today] is never empty. *)
Theorem get_dates_start_before_today (w : world) :
  valid_date (date_today w) -> has_neighbours (date_today w) ->
  exists d,
    get_dates w = (inr d, []) /\
    today d = strftime (date_today w) /\
    start_date d = strftime (window_start (date_today w)) /\
    valid_date (window_start (date_today w)) /\
    date_lt (window_start (date_today w)) (date_today w).
Proof.
  intros V N. destruct (@get_dates_run w V N) as (y & _ & Hrun).
  destruct N as [N1 _].
  eexists. split; [exact Hrun|]. cbn [today start_date].
  split; [reflexivity|]. split; [reflexivity|].
  now apply window_start_before.
Qed.

(** C3.  On the first day of the month [get_forecast_data] returns
    [total_cost_usd] unchanged and calls no service at all.  On any other
    day it queries the forecast API once, for the range from [today] to
    [start_of_next_month], and returns the total amount of the response
    read as a float. *)
Theorem get_forecast_data_branches (w : world) (dates : Dates)
    (total_cost_usd : float) :
  (is_first_day dates = true ->
   get_forecast_data dates total_cost_usd w =
     (inr total_cost_usd,
      [EvLog INFO "First day of the month, using total cost as forecast"]) /\
   forecast_queries (snd (get_forecast_data dates total_cost_usd w)) = []) /\
  (is_first_day dates = false ->
   boto3_client w "ce" = None ->
   forecast_queries (snd (get_forecast_data dates total_cost_usd w))
     = [(today dates, start_of_next_month dates)] /\
   (forall response total amount f,
      ce_get_cost_forecast w (today dates) (start_of_next_month dates)
        = ok response ->
      ForecastTotal response = Some total ->
      Amount total = Some amount ->
      float_of_str amount = Some f ->
      fst (get_forecast_data dates total_cost_usd w) = inr f)).
Proof.
  split.
  - intros F. unfold get_forecast_data. rewrite F. split; reflexivity.
  - intros F Hc. unfold get_forecast_data. rewrite F.
    unfold get_aws_cost_forecast, try_except, bind, client, call,
      logger_info, logger_error, emit, ret, lift, raise, Exception.
    rewrite Hc. cbv beta iota.
    split.
    + destruct (ce_get_cost_forecast w (today dates) (start_of_next_month dates))
        as [e|response]; cbv beta iota.
      * destruct (isinstance e [BotoCoreError; ClientError]); reflexivity.
      * destruct (float_amount _); reflexivity.
    + intros response total amount f Hr HT HA Hf.
      rewrite Hr. red_ok. rewrite HT, HA. unfold float_amount, float_str.
      rewrite Hf. reflexivity.
Qed.

(** C5 (as the code has it).  [convert_usd_to_jpy] truncates the float
    product toward zero: it returns the floor of the product when the
    product is not negative, and minus the floor of its magnitude when it
    is negative; so 150.0 and 10.004 give 1500, 145.0 and 542.10 give
    78604, and 145.0 and 1200.00 give 174000.  It raises when the product
    is not finite. *)
Theorem convert_usd_to_jpy_truncates (rate amount : float) :
  (forall fl,
     Float64.nonneg (Float64.mul rate amount) = true ->
     spec_floor_convert rate amount = Some fl ->
     convert_usd_to_jpy rate amount = ok fl) /\
  (forall fl,
     Float64.nonneg (Float64.mul rate amount) = false ->
     Float64.floor (SFopp (Float64.mul rate amount)) = Some fl ->
     convert_usd_to_jpy rate amount = ok (- fl)) /\
  (spec_floor_convert rate amount = None ->
   exists e, convert_usd_to_jpy rate amount = inl e) /\
  convert_usd_to_jpy (Float64.of_decimal 1500 1) (Float64.of_decimal 10004 3)
    = ok 1500 /\
  convert_usd_to_jpy (Float64.of_decimal 1450 1) (Float64.of_decimal 54210 2)
    = ok 78604 /\
  convert_usd_to_jpy (Float64.of_decimal 1450 1) (Float64.of_decimal 120000 2)
    = ok 174000.
Proof.
  unfold convert_usd_to_jpy, spec_floor_convert.
  split; [|split; [|split; [|repeat split; vm_compute; reflexivity]]].
  - intros fl. destruct (Float64.mul rate amount) as [s|s| |[] m e]; cbn;
      intros N F; try discriminate; now injection F as <-.
  - intros fl. destruct (Float64.mul rate amount) as [s|s| |[] m e]; cbn;
      intros N F; try discriminate; now injection F as <-.
  - destruct (Float64.mul rate amount) as [s|s| |s m e]; cbn;
      intros F; try discriminate; eexists; reflexivity.
Qed.

Lemma send_message_to_slack_returns (w : world) (message : string) :
  fst (send_message_to_slack message w) = inr tt.
Proof.
  unfold send_message_to_slack.
  destruct (getenv_SLACK_WEBHOOK_URL w) as [url|]; [|reflexivity].
  destruct (String.eqb url ""); [reflexivity|]. cbn [negb].
  unfold try_except, bind, call, lift, logger_info, logger_error, emit,
    as_request_exception, raise_for_status.
  destruct (requests_post w url _) as [reason|response]; [reflexivity|].
  cbv beta iota delta [throw ok].
  destruct ((400 <=? status_code response) && (status_code response <? 600));
    reflexivity.
Qed.


(** The FX fetcher lets an [AttributeError] escape: a ticker body that
    decodes to anything but an object has no [get] method, and the
    [except] clause names [RequestException], [ValueError] and
    [TypeError] only. *)
Lemma get_exchange_rate_raises_on_non_object (w : world) (response : Response)
    (payload : pyval) :
  requests_get w GMOCOIN_API_ENDPOINT = inr response ->
  raise_for_status response = ok tt ->
  json_body response = Some payload ->
  (forall d, payload <> PDict d) ->
  get_exchange_rate w =
    (throw AttributeError
       ("'" ++ type_name payload ++ "' object has no attribute 'get'"),
     [EvGet GMOCOIN_API_ENDPOINT]).
Proof.
  intros Hg Hs Hj Hd.
  unfold get_exchange_rate, try_except, bind, call, lift, json.
  rewrite Hg. cbv beta iota delta [as_request_exception ok].
  rewrite Hs. red_ok. rewrite Hj.
  destruct payload; try reflexivity. now destruct (Hd d).
Qed.

(** X2.  Where the fallback of the FX fetcher does work: a failed request, an
    HTTP error status, a body that is not JSON, and an object whose
    "status" is not 0 all give the default rate. *)
Lemma get_exchange_rate_falls_back (w : world) :
  (forall reason, requests_get w GMOCOIN_API_ENDPOINT = inl reason ->
     fst (get_exchange_rate w) = inr DEFAULT_EXCHANGE_RATE) /\
  (forall response e,
     requests_get w GMOCOIN_API_ENDPOINT = inr response ->
     raise_for_status response = inl e ->
     fst (get_exchange_rate w) = inr DEFAULT_EXCHANGE_RATE) /\
  (forall response,
     requests_get w GMOCOIN_API_ENDPOINT = inr response ->
     json_body response = None ->
     fst (get_exchange_rate w) = inr DEFAULT_EXCHANGE_RATE) /\
  (forall response d status,
     requests_get w GMOCOIN_API_ENDPOINT = inr response ->
     json_body response = Some (PDict d) ->
     py_get (PDict d) "status" PNone = ok status ->
     py_ne_zero status = true ->
     fst (get_exchange_rate w) = inr DEFAULT_EXCHANGE_RATE).
Proof.
  unfold get_exchange_rate, try_except, bind, call, lift, json, logger_error,
    logger_info, emit, ret, raise.
  repeat split.
  - intros reason Hg. rewrite Hg. reflexivity.
  - intros response e Hg Hs. rewrite Hg.
    cbv beta iota delta [as_request_exception ok]. rewrite Hs.
    unfold raise_for_status in Hs.
    destruct ((400 <=? status_code response) && (status_code response <? 600));
      [|discriminate].
    injection Hs as <-. reflexivity.
  - intros response Hg Hj. rewrite Hg.
    cbv beta iota delta [as_request_exception ok].
    destruct (raise_for_status response) as [e|[]] eqn:Hs.
    + unfold raise_for_status in Hs.
      destruct ((400 <=? status_code response) && (status_code response <? 600));
        [|discriminate].
      injection Hs as <-. reflexivity.
    + rewrite Hj. reflexivity.
  - intros response d status Hg Hj Hst Hne. rewrite Hg.
    cbv beta iota delta [as_request_exception ok].
    destruct (raise_for_status response) as [e|[]] eqn:Hs.
    + unfold raise_for_status in Hs.
      destruct ((400 <=? status_code response) && (status_code response <? 600));
        [|discriminate].
      injection Hs as <-. reflexivity.
    + rewrite Hj. red_ok. rewrite Hst. red_ok. rewrite Hne. reflexivity.
Qed.

Lemma next_usd_jpy_absent (items : list pyval) :
  Forall other_pair items -> next_usd_jpy items = ok PNone.
Proof.
  induction 1 as [|x items [[d ->] Hx] _ IH]; [reflexivity|].
  cbn in *. now rewrite Hx.
Qed.

Lemma next_usd_jpy_found (before after : list pyval) (record : list (string * pyval)) :
  Forall other_pair before ->
  symbol_is (PDict record) "USD_JPY" = true ->
  next_usd_jpy (before ++ PDict record :: after)%list = ok (PDict record).
Proof.
  intros Hb Hr. induction Hb as [|x items [[d ->] Hx] _ IH].
  - cbn in *. now rewrite Hr.
  - cbn in *. now rewrite Hx.
Qed.

(** X3.  Where the FX fetcher reads the ticker: on an object
    with status 0 and a list of records that are objects, it returns the
    default rate when no record quotes USD/JPY, and else the "ask" of the
    first record that does, read by [float]. *)
Lemma get_exchange_rate_on_ticker (w : world) (response : Response)
    (d : list (string * pyval)) (status : pyval) (items : list pyval) :
  requests_get w GMOCOIN_API_ENDPOINT = inr response ->
  raise_for_status response = ok tt ->
  json_body response = Some (PDict d) ->
  assoc "status" d = Some status -> py_ne_zero status = false ->
  assoc "data" d = Some (PList items) ->
  (Forall other_pair items ->
   fst (get_exchange_rate w) = inr DEFAULT_EXCHANGE_RATE) /\
  (forall before record after ask f,
     items = (before ++ PDict record :: after)%list ->
     Forall other_pair before ->
     symbol_is (PDict record) "USD_JPY" = true ->
     assoc "ask" record = Some (PStr ask) ->
     float_of_str ask = Some f ->
     fst (get_exchange_rate w) = inr f).
Proof.
  intros Hg Hs Hj Hst Hz Hd.
  unfold get_exchange_rate, try_except, bind, call, lift, json, logger_error,
    logger_info, emit, ret, raise.
  rewrite Hg. cbv beta iota delta [as_request_exception ok].
  rewrite Hs. red_ok. rewrite Hj. red_ok.
  unfold py_get. rewrite Hst. red_ok. rewrite Hz. red_ok.
  rewrite Hd. cbv beta iota delta [ok py_iter].
  split.
  - intros Hi. rewrite (@next_usd_jpy_absent items Hi). reflexivity.
  - intros before record after ask f -> Hb Hr Ha Hf.
    rewrite (@next_usd_jpy_found before after record Hb Hr). red_ok.
    assert (T : py_truthy (PDict record) = true).
    { destruct record; [discriminate Ha|reflexivity]. }
    rewrite T, Ha. cbv beta iota delta [ok py_float float_str].
    rewrite Hf. reflexivity.
Qed.

(* ================================================================= *)
(** * The run of [main] *)

Lemma silent_of_quiet {A} (m : M A) : quiet m -> silent_failure m.
Proof. intros Q w e t H. specialize (Q w). now rewrite H in Q. Qed.

Lemma silent_bind {A B} (m : M A) (f : A -> M B) :
  quiet m -> (forall a, silent_failure (f a)) -> silent_failure (bind m f).
Proof.
  intros Q S w e t H. unfold bind in H. specialize (Q w).
  destruct (m w) as [[e'|a] t1].
  - injection H as <- <-. exact Q.
  - destruct (f a w) as [r t2] eqn:F. injection H as -> <-.
    rewrite notifications_app. cbn [snd] in Q. rewrite Q.
    now apply (S a w e t2).
Qed.

Lemma bind_inv {A B} (m : M A) (f : A -> M B) (w : world) b t :
  bind m f w = (inr b, t) ->
  exists a t1 t2, m w = (inr a, t1) /\ f a w = (inr b, t2) /\ t = (t1 ++ t2)%list.
Proof.
  unfold bind. destruct (m w) as [[e|a] t1]; [discriminate|].
  destruct (f a w) as [r t2] eqn:F. intros H. injection H as -> <-.
  now exists a, t1, t2.
Qed.

Lemma lift_inv {A} (r : result A) (w : world) a t :
  lift r w = (inr a, t) -> r = ok a /\ t = [].
Proof. unfold lift. intros H. now injection H as -> <-. Qed.

(** The last two statements of the [try] block never raise. *)
Lemma deliver_and_log_returns (w : world) (message : string) :
  bind (send_message_to_slack message)
       (fun _ => logger_info "Script completed successfully") w =
    (inr tt,
     (snd (send_message_to_slack message w)
        ++ [EvLog INFO "Script completed successfully"])%list).
Proof.
  unfold bind. pose proof (send_message_to_slack_returns w message) as R.
  destruct (send_message_to_slack message w) as [[e|[]] t]; [discriminate|].
  reflexivity.
Qed.

Lemma main_try_silent (event : pyval) : silent_failure (main_try event).
Proof.
  unfold main_try.
  apply silent_bind; [apply quiet_lift|intros include_tax].
  apply silent_bind; [apply get_dates_quiet|intros dates].
  apply silent_bind; [apply get_account_info_quiet|intros [account_id account_alias]].
  apply silent_bind; [apply get_cost_data_quiet|intros [total_cost_usd top5_costs]].
  apply silent_bind; [apply get_exchange_rate_quiet|intros exchange_rate].
  apply silent_bind; [apply quiet_lift|intros total_cost_jpy].
  apply silent_bind; [apply get_forecast_data_quiet|intros forecast_cost_usd].
  apply silent_bind; [apply quiet_lift|intros forecast_cost_jpy].
  apply silent_bind; [apply quiet_lift|intros message].
  intros w e t H. rewrite deliver_and_log_returns in H. discriminate.
Qed.

(** What [main] does with an exception of its [try] block. *)
Lemma main_on_exception (w : world) (event context : pyval) e t :
  main_try event w = (inl e, t) ->
  main event context w =
    (inr tt,
     (t ++ [EvLog ERROR
              ("An error occurred during script execution: " ++ exn_str e)])%list)
  /\ notifications (snd (main event context w)) = [].
Proof.
  intros H.
  assert (E : main event context w =
    (inr tt,
     (t ++ [EvLog ERROR
              ("An error occurred during script execution: " ++ exn_str e)])%list)).
  { unfold main, try_except. rewrite H. reflexivity. }
  split; [exact E|]. rewrite E. cbn [snd].
  rewrite notifications_app, (@main_try_silent event w e t H). reflexivity.
Qed.

Lemma main_returns (w : world) (event context : pyval) :
  fst (main event context w) = inr tt.
Proof.
  unfold main, try_except.
  destruct (main_try event w) as [[e|[]] t]; reflexivity.
Qed.

Lemma fatal_step_raises (w : world) (event : pyval) (e : exn) :
  fatal_step w event e -> exists t, main_try event w = (inl e, t).
Proof.
  intros [include_tax dates t0 t1 Hi Hd Ha
         |include_tax dates t0 [account_id account_alias] t1 t2 Hi Hd Ha Hc
         |include_tax dates t0 [account_id account_alias] t1 total top5 t2
            rate t3 jpy t4 Hi Hd Ha Hc Hx Hj Hf];
    unfold main_try, bind, lift; rewrite Hi; red_ok; rewrite Hd, Ha.
  - eexists; reflexivity.
  - rewrite Hc. eexists; reflexivity.
  - rewrite Hc, Hx, Hj. red_ok. rewrite Hf. eexists; reflexivity.
Qed.

(** C8.  [main] returns normally whatever happens: its single catch-all
    logs the exception and the run ends with the same result as a run
    that succeeds.  When the identity, the billing or the forecast step
    raises, the error log is the last event of the run and nothing has
    been delivered. *)
Theorem main_catches_every_exception (w : world) (event context : pyval) :
  fst (main event context w) = inr tt /\
  forall e, fatal_step w event e ->
    notifications (snd (main event context w)) = [] /\
    exists t,
      snd (main event context w) =
        (t ++ [EvLog ERROR
                 ("An error occurred during script execution: " ++ exn_str e)])%list.
Proof.
  split; [apply main_returns|].
  intros e F. destruct (@fatal_step_raises w event e F) as (t & H).
  destruct (@main_on_exception w event context e t H) as (E & Q).
  split; [exact Q|]. exists t. now rewrite E.
Qed.

Lemma append_assoc (a b c : string) : (a ++ b) ++ c = a ++ (b ++ c).
Proof. induction a as [|x a IH]; cbn; [reflexivity|now rewrite IH]. Qed.

Lemma append_nil_r (a : string) : a ++ "" = a.
Proof. induction a as [|x a IH]; cbn; [reflexivity|now rewrite IH]. Qed.

Lemma quiet_run {A} (m : M A) (w : world) r t :
  quiet m -> m w = (r, t) -> notifications t = [].
Proof. intros Q H. specialize (Q w). now rewrite H in Q. Qed.

(** A run of [get_dates] that returns has found both neighbours. *)
Lemma get_dates_returns_neighbours (w : world) d t :
  valid_date (date_today w) -> get_dates w = (inr d, t) ->
  has_neighbours (date_today w).
Proof.
  intros V H. split.
  - intros E. unfold get_dates, bind, lift in H. rewrite E in H.
    cbn in H. discriminate.
  - intros [Y Mo].
    assert (L : add_one_day (last_of_month (date_today w))
                = throw OverflowError "date value out of range").
    { unfold add_one_day, last_of_month. cbn [year month day].
      rewrite Y, Mo. reflexivity. }
    unfold get_dates, bind, lift, ret in H.
    destruct (sub_one_day (date_today w)) as [e|y]; [discriminate|].
    destruct (day (date_today w) =? 1).
    + rewrite replace_day_first in H. red_ok in H.
      destruct (sub_one_day (first_of_month (date_today w))) as [e|p];
        [discriminate|].
      destruct (replace_day p 1) as [e|s]; [discriminate|].
      red_ok in H. rewrite (monthrange_days_valid V) in H. red_ok in H.
      rewrite replace_day_last in H. red_ok in H. rewrite L in H.
      discriminate.
    + rewrite replace_day_first in H. red_ok in H.
      rewrite (monthrange_days_valid V) in H. red_ok in H.
      rewrite replace_day_last in H. red_ok in H. rewrite L in H.
      discriminate.
Qed.

Lemma get_aws_cost_usage_queries (w : world) s e g response t :
  get_aws_cost_usage s e g w = (inr response, t) ->
  In (EvGetCostAndUsage s e g) t.
Proof.
  unfold get_aws_cost_usage, try_except, bind, client, call, logger_info,
    logger_error, emit, ret, raise.
  destruct (boto3_client w "ce"); [discriminate|].
  destruct (ce_get_cost_and_usage w s e g) as [x|r].
  - destruct (isinstance x [BotoCoreError; ClientError]); discriminate.
  - intros H. injection H as _ <-. cbn. auto.
Qed.

(** A run of [get_cost_data] that returns has queried the window from
    [start_date] to [today]. *)
Lemma get_cost_data_queries_window (w : world) dates include_tax x t :
  get_cost_data dates include_tax w = (inr x, t) ->
  In (EvGetCostAndUsage (start_date dates) (today dates) true) t.
Proof.
  unfold get_cost_data, try_except.
  match goal with |- context [match ?b w with _ => _ end] =>
    destruct (b w) as [[e|a] t'] eqn:Hb end.
  - unfold Exception, bind, logger_error, emit, raise. discriminate.
  - intros H. injection H as _ <-.
    apply bind_inv in Hb as (r & t1 & t2 & H1 & _ & ->).
    apply in_or_app. left. now apply get_aws_cost_usage_queries in H1.
Qed.

Lemma send_message_to_slack_delivers (w : world) (message : string) ev :
  In ev (snd (send_message_to_slack message w)) ->
  is_notification ev = true -> delivers ev message.
Proof.
  unfold send_message_to_slack, delivers.
  assert (P : In ev (snd ((logger_info
                "SLACK_WEBHOOK_URL not set, printing message to console" ;;
              print message)%M w)) ->
              is_notification ev = true ->
              ev = EvPrint message \/
              exists url, ev = EvPost url (PDict [("text", PStr message)])).
  { cbn. intros [<-|[<-|[]]] N; [discriminate|now left]. }
  destruct (getenv_SLACK_WEBHOOK_URL w) as [url|]; [|exact P].
  destruct (String.eqb url ""); [exact P|]. cbn [negb].
  unfold try_except, bind, call, lift, logger_info, logger_error, emit,
    as_request_exception, raise_for_status.
  destruct (requests_post w url _) as [reason|response].
  - cbn. intros [<-|[<-|[]]] N; [right; now exists url|discriminate].
  - cbv beta iota delta [throw ok].
    destruct ((400 <=? status_code response) && (status_code response <? 600));
      cbn; intros [<-|[<-|[]]] N; try discriminate; right; now exists url.
Qed.

Lemma format_top5_extends (top5_costs : list CostItem) :
  forall i message r,
    format_top5 i top5_costs message = ok r ->
    exists suffix, r = message ++ suffix.
Proof.
  induction top5_costs as [|cost rest IH]; intros i message r H.
  - injection H as <-. exists "". now rewrite append_nil_r.
  - cbn [format_top5] in H. unfold rbind in H.
    destruct (float_amount _) as [e|amount]; [discriminate|].
    destruct (first_key cost) as [e|service]; [discriminate|].
    apply IH in H as (suffix & ->).
    eexists. rewrite !append_assoc. reflexivity.
Qed.

(** The second line of the report shows the range it was given. *)
Lemma format_cost_message_range
    (account_id account_alias display_start_date display_end_date : string)
    (total_cost_usd : float) (total_cost_jpy : Z)
    (forecast_cost_usd : float) (forecast_cost_jpy : Z)
    (exchange_rate : float) (top5_costs : list CostItem) (message : string) :
  format_cost_message account_id account_alias display_start_date
    display_end_date total_cost_usd total_cost_jpy forecast_cost_usd
    forecast_cost_jpy exchange_rate top5_costs = ok message ->
  exists tail,
    message =
      (nl ++ "アカウント: " ++ account_alias ++ " (" ++ account_id ++ ")" ++ nl)
      ++ "期間: " ++ display_start_date ++ " - " ++ display_end_date ++ nl
      ++ tail.
Proof.
  unfold format_cost_message. intros H.
  apply format_top5_extends in H as (suffix & ->).
  eexists. rewrite !append_assoc. reflexivity.
Qed.

(** C10.  Whatever [main] delivers is the report whose date range starts
    at the start of the billing window and ends at yesterday, the day
    before today, while the billing query of the run covers the half-open
    window from that start to today; the days from the start to yesterday
    inclusive are exactly the days from the start up to, not including,
    today. *)
Theorem main_reports_through_yesterday (w : world) (ev : event)
    (event context : pyval) :
  valid_date (date_today w) ->
  In ev (snd (main event context w)) ->
  is_notification ev = true ->
  exists (y : date) (message head tail : string),
    delivers ev message /\
    message =
      head ++ "期間: " ++ strftime (window_start (date_today w)) ++ " - "
           ++ strftime y ++ nl ++ tail /\
    sub_one_day (date_today w) = ok y /\
    In (EvGetCostAndUsage (strftime (window_start (date_today w)))
          (strftime (date_today w)) true)
       (snd (main event context w)) /\
    forall x, valid_date x ->
      (date_le (window_start (date_today w)) x /\ date_le x y <->
       date_le (window_start (date_today w)) x /\ date_lt x (date_today w)).
Proof.
  intros V Hin Hn.
  destruct (main_try event w) as [[e|[]] t] eqn:Hm.
  - destruct (@main_on_exception w event context e t Hm) as (_ & Q).
    assert (F : In ev (notifications (snd (main event context w)))).
    { apply filter_In. now split. }
    rewrite Q in F. destruct F.
  - assert (E : main event context w = (inr tt, t)).
    { unfold main. now apply try_except_ok. }
    rewrite E in *. cbn [snd] in *. clear E.
    unfold main_try in Hm.
    apply bind_inv in Hm as (include_tax & t1 & u1 & H1 & Hm & ->).
    cbv beta in Hm.
    apply bind_inv in Hm as (dates & t2 & u2 & H2 & Hm & ->).
    cbv beta in Hm.
    apply bind_inv in Hm as ([account_id account_alias] & t3 & u3 & H3 & Hm & ->).
    cbv beta iota in Hm.
    apply bind_inv in Hm as ([total_cost_usd top5] & t4 & u4 & H4 & Hm & ->).
    cbv beta iota in Hm.
    apply bind_inv in Hm as (rate & t5 & u5 & H5 & Hm & ->).
    cbv beta in Hm.
    apply bind_inv in Hm as (jpy & t6 & u6 & H6 & Hm & ->).
    cbv beta in Hm.
    apply bind_inv in Hm as (forecast & t7 & u7 & H7 & Hm & ->).
    cbv beta in Hm.
    apply bind_inv in Hm as (forecast_jpy & t8 & u8 & H8 & Hm & ->).
    cbv beta in Hm.
    apply bind_inv in Hm as (message & t9 & u9 & H9 & Hm & ->).
    cbv beta in Hm.
    rewrite deliver_and_log_returns in Hm. injection Hm as <-.
    (* the dates of the run *)
    pose proof (@get_dates_returns_neighbours w dates t2 V H2) as N.
    destruct (@get_dates_run w V N) as (y & Hy & Hrun).
    rewrite Hrun in H2. injection H2 as <- <-.
    cbn [start_date yesterday today] in *.
    (* the report *)
    apply lift_inv in H9 as (H9 & ->).
    apply format_cost_message_range in H9 as (tail & H9).
    (* only the notifier delivers *)
    assert (D : delivers ev message).
    { apply send_message_to_slack_delivers with w; [|exact Hn].
      assert (F : In ev (notifications
                 (t1 ++ [] ++ t3 ++ t4 ++ t5 ++ t6 ++ t7 ++ t8 ++ [] ++
                  snd (send_message_to_slack message w) ++
                  [EvLog INFO "Script completed successfully"])%list)).
      { apply filter_In. now split. }
      rewrite !notifications_app in F.
      rewrite (@quiet_run _ _ w _ _ (@quiet_lift _ _) H1) in F.
      rewrite (@quiet_run _ _ w _ _ get_account_info_quiet H3) in F.
      rewrite (@quiet_run _ _ w _ _ (@get_cost_data_quiet _ _) H4) in F.
      rewrite (@quiet_run _ _ w _ _ get_exchange_rate_quiet H5) in F.
      rewrite (@quiet_run _ _ w _ _ (@quiet_lift _ _) H6) in F.
      rewrite (@quiet_run _ _ w _ _ (@get_forecast_data_quiet _ _) H7) in F.
      rewrite (@quiet_run _ _ w _ _ (@quiet_lift _ _) H8) in F.
      cbn [app notifications filter is_notification] in F.
      rewrite app_nil_r in F. unfold notifications in F.
      now apply filter_In in F. }
    exists y, message. eexists. exists tail.
    split; [exact D|]. split; [exact H9|]. split; [exact Hy|].
    split.
    + apply in_or_app. right. apply in_or_app. right.
      apply in_or_app. right. apply in_or_app. left.
      now apply get_cost_data_queries_window in H4.
    + intros x Vx. pose proof (date_le_day_before Vx V Hy). tauto.
Qed.

(* ================================================================= *)
(** * Further properties: the FX fetcher *)

(** Every run of [get_exchange_rate] is one request followed by at most one
    log line. *)
Lemma get_exchange_rate_eq (w : world) :
  get_exchange_rate w =
    match read_ticker (requests_get w GMOCOIN_API_ENDPOINT) with
    | inr rate =>
        (inr rate,
         [EvGet GMOCOIN_API_ENDPOINT;
          EvLog INFO ("Successfully retrieved exchange rate: " ++ str_of_float rate)])
    | inl e =>
        if isinstance e [RequestException; ValueError; TypeError]
        then (inr DEFAULT_EXCHANGE_RATE,
              [EvGet GMOCOIN_API_ENDPOINT;
               EvLog ERROR
                 ("Failed to retrieve exchange rate, using default: " ++ exn_str e)])
        else (inl e, [EvGet GMOCOIN_API_ENDPOINT])
    end.
Proof.
  unfold get_exchange_rate, read_ticker, try_except, bind, call, lift, rbind,
    logger_info, logger_error, emit, ret, raise.
  destruct (as_request_exception (requests_get w GMOCOIN_API_ENDPOINT))
    as [e|response]; [destruct (isinstance e _); reflexivity|].
  destruct (raise_for_status response) as [e|[]];
    [destruct (isinstance e _); reflexivity|].
  destruct (json response) as [e|data];
    [destruct (isinstance e _); reflexivity|].
  destruct (py_get data "status" PNone) as [e|status];
    [destruct (isinstance e _); reflexivity|].
  destruct (py_ne_zero status); [reflexivity|].
  cbv beta iota delta [ok].
  destruct (py_get data "data" (PList [])) as [e|records];
    [destruct (isinstance e _); reflexivity|].
  destruct (py_iter records) as [e|items];
    [destruct (isinstance e _); reflexivity|].
  destruct (next_usd_jpy items) as [e|usd_jpy_data];
    [destruct (isinstance e _); reflexivity|].
  destruct (py_truthy usd_jpy_data); [|reflexivity].
  destruct (py_get usd_jpy_data "ask" PNone) as [e|ask];
    [destruct (isinstance e _); reflexivity|].
  destruct (py_float ask) as [e|rate];
    [destruct (isinstance e _); reflexivity|reflexivity].
Qed.







(** X4.  A USD/JPY record whose "ask" cannot be read (it is missing, null,
    or a string that is not a number) gives the default rate: the
    [TypeError] or [ValueError] of [float] is caught. *)
Theorem get_exchange_rate_unreadable_ask (w : world) (response : Response)
    (d : list (string * pyval)) (status : pyval)
    (before after : list pyval) (record : list (string * pyval)) :
  requests_get w GMOCOIN_API_ENDPOINT = inr response ->
  raise_for_status response = ok tt ->
  json_body response = Some (PDict d) ->
  assoc "status" d = Some status -> py_ne_zero status = false ->
  assoc "data" d = Some (PList (before ++ PDict record :: after)) ->
  Forall other_pair before ->
  symbol_is (PDict record) "USD_JPY" = true ->
  (assoc "ask" record = None \/ assoc "ask" record = Some PNone \/
   exists s, assoc "ask" record = Some (PStr s) /\ float_of_str s = None) ->
  fst (get_exchange_rate w) = inr DEFAULT_EXCHANGE_RATE.
Proof.
  intros Hg Hs Hj Hst Hz Hd Hb Hr Ha.
  rewrite get_exchange_rate_eq, Hg. unfold read_ticker, rbind.
  cbv beta iota delta [as_request_exception ok]. rewrite Hs. red_ok.
  unfold json. rewrite Hj. red_ok. unfold py_get at 1 2. rewrite Hst. red_ok.
  rewrite Hz. red_ok. rewrite Hd. cbv beta iota delta [ok py_iter].
  rewrite (@next_usd_jpy_found before after record Hb Hr). red_ok.
  assert (T : py_truthy (PDict record) = true).
  { destruct record as [|kv record]; [|reflexivity].
    cbn in Hr. discriminate. }
  rewrite T. unfold py_get.
  destruct Ha as [Ha|[Ha|(s & Ha & Hf)]]; rewrite Ha;
    cbv beta iota delta [ok py_float]; try reflexivity.
  unfold float_str. rewrite Hf. reflexivity.
Qed.

(* ================================================================= *)
(** * Further properties: the account and the Cost Explorer calls *)

(** X5.  When the identity and the alias service answer, [get_account_info]
    returns the account id with the first alias of the account, and with
    "N/A" when the account has no alias. *)
Theorem get_account_info_alias (w : world) (identity : CallerIdentity)
    (account_id : string) (response : ListAccountAliases)
    (aliases : list string) :
  boto3_client w "sts" = None ->
  boto3_client w "iam" = None ->
  sts_get_caller_identity w = ok identity ->
  Account identity = Some account_id ->
  iam_list_account_aliases w = ok response ->
  AccountAliases response = Some aliases ->
  fst (get_account_info w) = inr (account_id, hd "N/A" aliases) /\
  (aliases = [] -> fst (get_account_info w) = inr (account_id, "N/A")).
Proof.
  intros Hs Hi Hid Ha Hr Hl.
  assert (E : fst (get_account_info w) = inr (account_id, hd "N/A" aliases)).
  { unfold get_account_info, bind, client, call, lift, ret, getitem.
    rewrite Hs, Hid. red_ok. rewrite Ha, Hi, Hr. red_ok. rewrite Hl.
    now destruct aliases. }
  split; [exact E|]. intros ->. exact E.
Qed.

(** X6.  [get_account_info] asks the alias service only after the identity
    service has returned an account id: when the identity step fails, the
    exception is raised as it is and no alias request is made. *)
Theorem get_account_info_identity_first (w : world) :
  (In EvListAccountAliases (snd (get_account_info w)) ->
   exists identity account_id,
     sts_get_caller_identity w = ok identity /\
     Account identity = Some account_id) /\
  (forall e,
     boto3_client w "sts" = None -> sts_get_caller_identity w = inl e ->
     get_account_info w = (inl e, [EvClient "sts"; EvGetCallerIdentity])).
Proof.
  unfold get_account_info, bind, client, call, lift, ret, getitem.
  split.
  - destruct (boto3_client w "sts").
    { cbn. intros [H|[]]. discriminate. }
    destruct (sts_get_caller_identity w) as [e|identity].
    { cbn. intros [H|[H|[]]]; discriminate. }
    destruct (Account identity) as [account_id|] eqn:Ha.
    2:{ cbn. intros [H|[H|[]]]; discriminate. }
    intros _. now exists identity, account_id.
  - intros e Hs Hid. rewrite Hs, Hid. reflexivity.
Qed.

(** X7.  [get_aws_cost_usage] is transparent: once the client exists it
    sends one query, for the given period and grouping, and returns the
    response or raises the exception of the API unchanged.  It logs an
    error line exactly for a [BotoCoreError] or a [ClientError]; and when
    the client cannot be created nothing is logged or queried. *)
Theorem get_aws_cost_usage_transparent (w : world) (start_date end_date : string)
    (group_by : bool) :
  (boto3_client w "ce" = None ->
   fst (get_aws_cost_usage start_date end_date group_by w)
     = ce_get_cost_and_usage w start_date end_date group_by /\
   snd (get_aws_cost_usage start_date end_date group_by w) =
     ([EvClient "ce";
       EvLog INFO
         ("Calling cost and usage API from " ++ start_date ++ " to " ++ end_date);
       EvGetCostAndUsage start_date end_date group_by] ++
      match ce_get_cost_and_usage w start_date end_date group_by with
      | inr _ =>
          [EvLog INFO "Successfully retrieved cost and usage data from AWS"]
      | inl e =>
          if isinstance e [BotoCoreError; ClientError]
          then [EvLog ERROR
                  ("Failed to retrieve cost and usage data from AWS: "
                     ++ exn_str e)]
          else []
      end)%list) /\
  (forall e,
     boto3_client w "ce" = Some e ->
     get_aws_cost_usage start_date end_date group_by w = (inl e, [EvClient "ce"])).
Proof.
  unfold get_aws_cost_usage, try_except, bind, client, call, logger_info,
    logger_error, emit, ret, raise.
  split.
  - intros Hc. rewrite Hc. cbv beta iota.
    destruct (ce_get_cost_and_usage w start_date end_date group_by) as [e|r].
    + destruct (isinstance e [BotoCoreError; ClientError]); split; reflexivity.
    + split; reflexivity.
  - intros e Hc. rewrite Hc. reflexivity.
Qed.

(** X8.  [get_aws_cost_forecast] is transparent in the same way: one
    forecast query for the given period, the response returned or the
    exception of the API raised unchanged, an error line exactly for a
    [BotoCoreError] or a [ClientError]. *)
Theorem get_aws_cost_forecast_transparent (w : world)
    (start_date end_date : string) :
  (boto3_client w "ce" = None ->
   fst (get_aws_cost_forecast start_date end_date w)
     = ce_get_cost_forecast w start_date end_date /\
   snd (get_aws_cost_forecast start_date end_date w) =
     ([EvClient "ce";
       EvLog INFO
         ("Calling cost forecast API from " ++ start_date ++ " to " ++ end_date);
       EvGetCostForecast start_date end_date] ++
      match ce_get_cost_forecast w start_date end_date with
      | inr _ => [EvLog INFO "Successfully retrieved cost forecast from AWS"]
      | inl e =>
          if isinstance e [BotoCoreError; ClientError]
          then [EvLog ERROR
                  ("Failed to retrieve cost forecast from AWS: " ++ exn_str e)]
          else []
      end)%list) /\
  (forall e,
     boto3_client w "ce" = Some e ->
     get_aws_cost_forecast start_date end_date w = (inl e, [EvClient "ce"])).
Proof.
  unfold get_aws_cost_forecast, try_except, bind, client, call, logger_info,
    logger_error, emit, ret, raise.
  split.
  - intros Hc. rewrite Hc. cbv beta iota.
    destruct (ce_get_cost_forecast w start_date end_date) as [e|r].
    + destruct (isinstance e [BotoCoreError; ClientError]); split; reflexivity.
    + split; reflexivity.
  - intros e Hc. rewrite Hc. reflexivity.
Qed.

(* ================================================================= *)
(** * Further properties: the date window *)

Lemma has_neighbours_dec (t : date) :
  has_neighbours t \/ t = Date MINYEAR 1 1 \/ (year t = MAXYEAR /\ month t = 12).
Proof.
  unfold has_neighbours. destruct t as [y m d]. cbn [year month day].
  destruct (Z.eq_dec y MAXYEAR) as [Y|Y], (Z.eq_dec m 12) as [Mo|Mo];
    try (right; right; now split).
  - left. split; [|tauto]. intros H. injection H. intros.
    unfold MINYEAR, MAXYEAR in *. lia.
  - left. split; [|tauto]. intros H. injection H. intros. lia.
  - destruct (Z.eq_dec y MINYEAR) as [Y1|Y1], (Z.eq_dec m 1) as [M1|M1],
      (Z.eq_dec d 1) as [D1|D1];
      try (left; split; [intros H; injection H; intros; contradiction|tauto]).
    right. left. now subst.
Qed.

(** At the two ends of the range of [datetime.date] the date arithmetic
    of [get_dates] overflows. *)
Lemma get_dates_overflows (w : world) :
  valid_date (date_today w) ->
  date_today w = Date MINYEAR 1 1 \/
  (year (date_today w) = MAXYEAR /\ month (date_today w) = 12) ->
  get_dates w = (throw OverflowError "date value out of range", []).
Proof.
  intros V [E|[Y Mo]].
  - unfold get_dates, bind, lift. rewrite E. reflexivity.
  - assert (N1 : date_today w <> Date MINYEAR 1 1).
    { intros E. rewrite E in Y. discriminate. }
    assert (L : add_one_day (last_of_month (date_today w))
                = throw OverflowError "date value out of range").
    { unfold add_one_day, last_of_month. cbn [year month day].
      rewrite Y, Mo. reflexivity. }
    destruct (sub_one_day_valid V N1) as (y & Hy & _).
    unfold get_dates, bind, lift, ret. rewrite Hy. red_ok.
    destruct (Z.eqb_spec (day (date_today w)) 1) as [D|D].
    + rewrite replace_day_first. red_ok.
      destruct (sub_one_day_first_of_month V N1 D) as (p & Hp & Hr).
      rewrite Hp. red_ok. rewrite Hr. red_ok.
      rewrite (monthrange_days_valid V). red_ok.
      rewrite replace_day_last. red_ok. rewrite L. reflexivity.
    + rewrite replace_day_first. red_ok.
      rewrite (monthrange_days_valid V). red_ok.
      rewrite replace_day_last. red_ok. rewrite L. reflexivity.
Qed.

(** X9.  [get_dates] calls no service and logs nothing.  On a valid date it
    returns unless the date is 0001-01-01 or lies in December 9999, and
    there it raises [OverflowError]; it raises nothing else. *)
Theorem get_dates_overflow_only (w : world) :
  valid_date (date_today w) ->
  snd (get_dates w) = [] /\
  ((exists d, fst (get_dates w) = inr d) <-> has_neighbours (date_today w)) /\
  (forall e, fst (get_dates w) = inl e -> exn_cls e = OverflowError).
Proof.
  intros V. destruct (has_neighbours_dec (date_today w)) as [N|B].
  - destruct (@get_dates_run w V N) as (y & _ & Hrun). rewrite Hrun.
    split; [reflexivity|]. split.
    + split; [intros _; exact N|intros _; eexists; reflexivity].
    + intros e H. discriminate.
  - rewrite (@get_dates_overflows w V B).
    split; [reflexivity|]. split.
    + split; [intros (d & H); discriminate|].
      intros [N1 N2]. destruct B as [B|B]; contradiction.
    + intros e H. injection H as <-. reflexivity.
Qed.

(** X10.  On the first day of a month the reported range is the whole
    previous month: [start_date] is its first day and [yesterday] its
    last day. *)
Theorem get_dates_first_day_previous_month (w : world) :
  valid_date (date_today w) -> has_neighbours (date_today w) ->
  day (date_today w) = 1 ->
  exists d,
    get_dates w = (inr d, []) /\
    is_first_day d = true /\
    start_date d = strftime (first_of_previous_month (date_today w)) /\
    yesterday d =
      strftime (last_of_month (first_of_previous_month (date_today w))).
Proof.
  intros V N D. destruct (@get_dates_run w V N) as (y & Hy & Hrun).
  eexists. split; [exact Hrun|]. cbn [is_first_day start_date yesterday].
  unfold window_start. rewrite D. cbn [Z.eqb Pos.eqb].
  split; [reflexivity|]. split; [reflexivity|]. f_equal.
  pose proof (proj1 (valid_date_spec _) V) as B.
  unfold sub_one_day in Hy. rewrite D in Hy. cbn [Z.ltb Z.compare Pos.compare Pos.compare_cont] in Hy.
  unfold first_of_previous_month, last_of_month.
  destruct (Z.ltb_spec 1 (month (date_today w))).
  - injection Hy as <-.
    destruct (Z.eqb_spec (month (date_today w)) 1); [lia|reflexivity].
  - destruct (Z.ltb_spec MINYEAR (year (date_today w))); [|discriminate].
    injection Hy as <-.
    destruct (Z.eqb_spec (month (date_today w)) 1); [reflexivity|lia].
Qed.

(** X11.  Neither range that [get_dates] prepares is empty: the window
    start is not after yesterday, so the report always covers at least
    one day, and today is strictly before [start_of_next_month], so the
    forecast period from today to the start of the next month has at
    least one day on every day of the month. *)
Theorem get_dates_ranges_not_empty (w : world) :
  valid_date (date_today w) -> has_neighbours (date_today w) ->
  exists d y,
    get_dates w = (inr d, []) /\
    start_date d = strftime (window_start (date_today w)) /\
    yesterday d = strftime y /\
    date_le (window_start (date_today w)) y /\
    today d = strftime (date_today w) /\
    start_of_next_month d = strftime (first_of_next_month (date_today w)) /\
    valid_date (first_of_next_month (date_today w)) /\
    date_lt (date_today w) (first_of_next_month (date_today w)).
Proof.
  intros V N. destruct (@get_dates_run w V N) as (y & Hy & Hrun).
  destruct N as [N1 N2].
  destruct (window_start_before V N1) as (Vs & Ls).
  pose proof (proj1 (valid_date_spec _) V) as B.
  eexists. exists y. split; [exact Hrun|].
  cbn [today yesterday start_date start_of_next_month].
  split; [reflexivity|]. split; [reflexivity|].
  split; [now apply (date_le_day_before Vs V Hy)|].
  split; [reflexivity|]. split; [reflexivity|].
  unfold first_of_next_month.
  destruct (Z.eqb_spec (month (date_today w)) 12) as [E|E].
  - split; [apply valid_date_spec|apply date_lt_spec]; cbn [year month day].
    + change (days_in_month (year (date_today w) + 1) 1) with 31.
      unfold MINYEAR, MAXYEAR in *. lia.
    + lia.
  - split; [apply valid_date_spec|apply date_lt_spec]; cbn [year month day].
    + pose proof (days_in_month_bounds (year (date_today w))
                    (month (date_today w) + 1)). lia.
    + lia.
Qed.

(* ================================================================= *)
(** * Further properties: the cost data *)

Lemma get_aws_cost_usage_returns (w : world) s e g response t :
  get_aws_cost_usage s e g w = (inr response, t) ->
  boto3_client w "ce" = None /\ ce_get_cost_and_usage w s e g = ok response.
Proof.
  unfold get_aws_cost_usage, try_except, bind, client, call, logger_info,
    logger_error, emit, ret, raise.
  destruct (boto3_client w "ce"); [discriminate|].
  destruct (ce_get_cost_and_usage w s e g) as [x|r].
  - destruct (isinstance x [BotoCoreError; ClientError]); discriminate.
  - intros H. injection H as <- _. now split.
Qed.

Lemma decorate_snd (l : list CostItem) :
  forall dl, decorate l = ok dl -> map snd dl = l.
Proof.
  induction l as [|x l IH]; intros dl H.
  - now injection H as <-.
  - cbn [decorate] in H. unfold rbind in H.
    destruct (amount_key x) as [e|k]; [discriminate|].
    destruct (decorate l) as [e|ks]; [discriminate|].
    injection H as <-. cbn. now rewrite (IH ks).
Qed.

Lemma without_tax_is_filter (groups kept : list CostItem) :
  without_tax groups = ok kept ->
  kept = filter (fun x => negb (is_tax x)) groups.
Proof.
  intros H. pose proof (without_tax_returns _ H) as F.
  rewrite (without_tax_filter F) in H. now injection H.
Qed.

(** The steps behind a result of [get_cost_data]. *)
Lemma get_cost_data_inv (w : world) (dates : Dates) (include_tax : bool)
    (total_cost_usd : float) (top5 : list CostItem) t :
  get_cost_data dates include_tax w = (inr (total_cost_usd, top5), t) ->
  exists grouped total by_time total_by_time decorated,
    boto3_client w "ce" = None /\
    ce_get_cost_and_usage w (start_date dates) (today dates) true = ok grouped /\
    ce_get_cost_and_usage w (start_date dates) (today dates) false = ok total /\
    first_result grouped = ok by_time /\
    (include_tax = false ->
     Forall has_first_key (match Groups by_time with Some g => g | None => [] end)) /\
    decorate (ranked_groups include_tax
                (match Groups by_time with Some g => g | None => [] end))
      = ok decorated /\
    top5 = firstn 5 (sorted_reverse decorated) /\
    first_result total = ok total_by_time /\
    float_amount (total_amount total_by_time) = ok total_cost_usd.
Proof.
  unfold get_cost_data, try_except.
  match goal with |- context [match ?b w with _ => _ end] =>
    destruct (b w) as [[e|a] t'] eqn:Hb end.
  { unfold Exception, bind, logger_error, emit, raise. discriminate. }
  intros H. injection H as -> _.
  apply bind_inv in Hb as (grouped & t1 & u1 & H1 & Hb & _). cbv beta in Hb.
  apply bind_inv in Hb as (total & t2 & u2 & H2 & Hb & _). cbv beta in Hb.
  apply bind_inv in Hb as (by_time & t3 & u3 & H3 & Hb & _). cbv beta zeta in Hb.
  apply bind_inv in Hb as (kept & t4 & u4 & H4 & Hb & _). cbv beta in Hb.
  apply bind_inv in Hb as (decorated & t5 & u5 & H5 & Hb & _). cbv beta zeta in Hb.
  apply bind_inv in Hb as (total_by_time & t6 & u6 & H6 & Hb & _). cbv beta in Hb.
  apply bind_inv in Hb as (amount & t7 & u7 & H7 & Hb & _). cbv beta in Hb.
  unfold ret in Hb. injection Hb as <- <- _.
  apply get_aws_cost_usage_returns in H1 as (Hc & H1).
  apply get_aws_cost_usage_returns in H2 as (_ & H2).
  apply lift_inv in H3 as (H3 & _). apply lift_inv in H5 as (H5 & _).
  apply lift_inv in H6 as (H6 & _). apply lift_inv in H7 as (H7 & _).
  exists grouped, total, by_time, total_by_time, decorated.
  unfold ranked_groups.
  destruct include_tax; cbn [negb] in H4.
  - unfold ret in H4. injection H4 as <- _.
    repeat split; try assumption. discriminate.
  - apply lift_inv in H4 as (H4 & _).
    pose proof (without_tax_returns _ H4) as F.
    apply without_tax_is_filter in H4. subst kept.
    repeat split; try assumption. intros _. exact F.
Qed.

(** X12.  Whatever the amounts are, a result of [get_cost_data] holds
    groups of the grouped response only, as many as there are groups to
    rank but never more than five, and no "Tax" group unless
    [include_tax] is set. *)
Theorem get_cost_data_result_invariant (w : world) (dates : Dates)
    (include_tax : bool) (total_cost_usd : float) (top5 : list CostItem) t :
  get_cost_data dates include_tax w = (inr (total_cost_usd, top5), t) ->
  exists grouped by_time,
    ce_get_cost_and_usage w (start_date dates) (today dates) true = ok grouped /\
    first_result grouped = ok by_time /\
    let groups := match Groups by_time with Some g => g | None => [] end in
    incl top5 groups /\
    List.length top5
      = Nat.min 5 (List.length (ranked_groups include_tax groups)) /\
    (List.length top5 <= 5)%nat /\
    (include_tax = false -> Forall (fun x => is_tax x = false) top5).
Proof.
  intros H.
  apply get_cost_data_inv in H
    as (grouped & total & by_time & tbt & decorated
        & Hc & Hg & Ht & Hb & Hk & Hd & -> & Hf & Ha).
  exists grouped, by_time. split; [exact Hg|]. split; [exact Hb|].
  cbv zeta.
  set (groups := match Groups by_time with Some g => g | None => [] end) in *.
  pose proof (decorate_snd _ Hd) as S.
  assert (P : Permutation (sorted_reverse decorated)
                (ranked_groups include_tax groups)).
  { unfold sorted_reverse. rewrite <- S. apply Permutation_map.
    apply sort_desc_perm. }
  assert (I : incl (ranked_groups include_tax groups) groups).
  { unfold ranked_groups. destruct include_tax; [apply incl_refl|].
    intros x Hx. now apply filter_In in Hx. }
  split.
  { intros x Hx. apply I. apply (Permutation_in _ P).
    rewrite <- (firstn_skipn 5 (sorted_reverse decorated)).
    apply in_or_app. now left. }
  split.
  { rewrite length_firstn. now rewrite (Permutation_length P). }
  split; [apply firstn_le_length|].
  intros E. apply Forall_firstn.
  apply (Permutation_Forall (Permutation_sym P)).
  unfold ranked_groups. rewrite E. apply Forall_forall. intros x Hx.
  apply filter_In in Hx. now apply negb_true_iff.
Qed.

(** X13.  The edge cases of ["ResultsByTime"]: when both responses lack the
    member, [get_cost_data] returns the total 0.0 and an empty ranking;
    when the grouped response holds an empty list, it raises
    [IndexError]. *)
Theorem get_cost_data_missing_results (w : world) (dates : Dates)
    (include_tax : bool) (grouped total : CostAndUsage) :
  boto3_client w "ce" = None ->
  ce_get_cost_and_usage w (start_date dates) (today dates) true = ok grouped ->
  ce_get_cost_and_usage w (start_date dates) (today dates) false = ok total ->
  (ResultsByTime grouped = None -> ResultsByTime total = None ->
   fst (get_cost_data dates include_tax w) = inr (S754_zero false, [])) /\
  (ResultsByTime grouped = Some [] ->
   exists e, fst (get_cost_data dates include_tax w) = inl e /\
             exn_cls e = IndexError).
Proof.
  intros Hc Hg Ht. split.
  - intros Eg Et.
    apply (@get_cost_data_run w dates include_tax grouped total
             {| Total := None; Groups := None |}
             {| Total := None; Groups := None |} [] [] (S754_zero false));
      try assumption; try reflexivity.
    + unfold first_result. now rewrite Eg.
    + now destruct include_tax.
    + unfold first_result. now rewrite Et.
  - intros Eg. eexists. split.
    + unfold get_cost_data, try_except, bind.
      rewrite (get_aws_cost_usage_run _ _ _ _ Hc Hg). cbv beta iota.
      rewrite (get_aws_cost_usage_run _ _ _ _ Hc Ht). cbv beta iota.
      unfold lift, first_result. rewrite Eg. reflexivity.
    + reflexivity.
Qed.

(** X14.  When the grouped query fails, [get_cost_data] raises the
    exception of the API unchanged after logging it, and the query for the
    total is never sent. *)
Theorem get_cost_data_grouped_failure (w : world) (dates : Dates)
    (include_tax : bool) (e : exn) :
  boto3_client w "ce" = None ->
  ce_get_cost_and_usage w (start_date dates) (today dates) true = inl e ->
  fst (get_cost_data dates include_tax w) = inl e /\
  ~ In (EvGetCostAndUsage (start_date dates) (today dates) false)
       (snd (get_cost_data dates include_tax w)) /\
  exists t,
    snd (get_cost_data dates include_tax w) =
      (t ++ [EvLog ERROR ("Failed to get cost data: " ++ exn_str e)])%list.
Proof.
  intros Hc Hg.
  unfold get_cost_data, get_aws_cost_usage, try_except, bind, client, call,
    logger_info, logger_error, emit, ret, raise, Exception.
  rewrite Hc. cbv beta iota. rewrite Hg.
  destruct (isinstance e [BotoCoreError; ClientError]); cbn.
  - split; [reflexivity|]. split.
    + intros [H|[H|[H|[H|[H|[]]]]]]; discriminate.
    + eexists [_; _; _; _]. reflexivity.
  - split; [reflexivity|]. split.
    + intros [H|[H|[H|[H|[]]]]]; discriminate.
    + eexists [_; _; _]. reflexivity.
Qed.

Lemma amount_key_raises (x : CostItem) (e : exn) :
  amount_key x = inl e -> exn_cls e = KeyError \/ exn_cls e = ValueError.
Proof.
  unfold amount_key, rbind, getitem, float_str, ok, throw.
  destruct (Metrics_ x) as [metrics|]; [|intros H; inversion H; now left].
  destruct (assoc "UnblendedCost" metrics) as [cost|];
    [|intros H; inversion H; now left].
  destruct (Amount cost) as [amount|]; [|intros H; inversion H; now left].
  destruct (float_of_str amount); intros H; inversion H. now right.
Qed.

Lemma decorate_raises (l : list CostItem) :
  Exists unpriced l ->
  exists e, decorate l = inl e /\
            (exn_cls e = KeyError \/ exn_cls e = ValueError).
Proof.
  induction l as [|x l IH]; intros H; [inversion H|].
  cbn [decorate]. unfold rbind.
  destruct (amount_key x) as [e|k] eqn:K.
  - exists e. split; [reflexivity|]. now apply amount_key_raises in K.
  - assert (Hl : Exists unpriced l).
    { inversion H as [? ? (e & He)|]; subst; [congruence|assumption]. }
    destruct (IH Hl) as (e & He & Hc). exists e. rewrite He. now split.
Qed.

(** X15.  The sort key is read with no default: a group to be ranked whose
    "Metrics", "UnblendedCost" or "Amount" is missing, or whose amount is
    not a number, makes [get_cost_data] raise [KeyError] or [ValueError];
    the group is not skipped. *)
Theorem get_cost_data_unreadable_amount (w : world) (dates : Dates)
    (include_tax : bool) (grouped total : CostAndUsage)
    (by_time : ResultByTime) :
  boto3_client w "ce" = None ->
  ce_get_cost_and_usage w (start_date dates) (today dates) true = ok grouped ->
  ce_get_cost_and_usage w (start_date dates) (today dates) false = ok total ->
  first_result grouped = ok by_time ->
  let groups := match Groups by_time with Some g => g | None => [] end in
  (include_tax = false -> Forall has_first_key groups) ->
  Exists unpriced (ranked_groups include_tax groups) ->
  exists e, fst (get_cost_data dates include_tax w) = inl e /\
            (exn_cls e = KeyError \/ exn_cls e = ValueError).
Proof.
  intros Hc Hg Ht Hb groups Hk Hx.
  destruct (decorate_raises Hx) as (e & He & Hcls).
  exists e. split; [|exact Hcls].
  unfold get_cost_data, try_except, bind.
  rewrite (get_aws_cost_usage_run _ _ _ _ Hc Hg). cbv beta iota.
  rewrite (get_aws_cost_usage_run _ _ _ _ Hc Ht). cbv beta iota.
  unfold lift. rewrite Hb. red_ok. fold groups.
  unfold ranked_groups in He.
  destruct include_tax; cbn [negb]; unfold ret.
  - rewrite He. reflexivity.
  - rewrite (without_tax_filter (Hk eq_refl)). red_ok. rewrite He. reflexivity.
Qed.

(* ================================================================= *)
(** * Further properties: the forecast *)

(** X16.  Off the first day of the month: a forecast response without a
    total amount gives the forecast 0.0; an amount that is not a number
    raises [ValueError]; and a failure of the forecast API is logged and
    raised unchanged. *)
Theorem get_forecast_data_edges (w : world) (dates : Dates)
    (total_cost_usd : float) :
  is_first_day dates = false ->
  boto3_client w "ce" = None ->
  (forall response,
     ce_get_cost_forecast w (today dates) (start_of_next_month dates)
       = ok response ->
     (ForecastTotal response = None \/
      exists total, ForecastTotal response = Some total /\ Amount total = None) ->
     fst (get_forecast_data dates total_cost_usd w) = inr (S754_zero false)) /\
  (forall response total amount,
     ce_get_cost_forecast w (today dates) (start_of_next_month dates)
       = ok response ->
     ForecastTotal response = Some total -> Amount total = Some amount ->
     float_of_str amount = None ->
     exists e, fst (get_forecast_data dates total_cost_usd w) = inl e /\
               exn_cls e = ValueError) /\
  (forall e,
     ce_get_cost_forecast w (today dates) (start_of_next_month dates) = inl e ->
     fst (get_forecast_data dates total_cost_usd w) = inl e /\
     exists t,
       snd (get_forecast_data dates total_cost_usd w) =
         (t ++ [EvLog ERROR ("Failed to get forecast data: " ++ exn_str e)])%list).
Proof.
  intros F Hc. unfold get_forecast_data. rewrite F.
  unfold get_aws_cost_forecast, try_except, bind, client, call,
    logger_info, logger_error, emit, ret, lift, raise, Exception.
  rewrite Hc. cbv beta iota.
  split; [|split].
  - intros response Hr [HT|(total & HT & HA)]; rewrite Hr; red_ok; rewrite HT;
      [|rewrite HA]; reflexivity.
  - intros response total amount Hr HT HA Hf. rewrite Hr. red_ok.
    rewrite HT, HA. unfold float_amount, float_str. rewrite Hf.
    eexists. split; reflexivity.
  - intros e Hr. rewrite Hr.
    destruct (isinstance e [BotoCoreError; ClientError]); cbn.
    + split; [reflexivity|]. eexists [_; _; _; _]. reflexivity.
    + split; [reflexivity|]. eexists [_; _; _]. reflexivity.
Qed.

(* ================================================================= *)
(** * Further properties: the report *)

Lemma format_top5_rows (costs : list CostItem) (rows : list (float * string)) :
  Forall2 printable costs rows ->
  forall i message,
    format_top5 i costs message = ok (message ++ report_lines i rows).
Proof.
  induction 1 as [|x [amount service] costs rows [Ha Hk] _ IH]; intros i message.
  - cbn. now rewrite append_nil_r.
  - cbn [format_top5 report_lines]. unfold rbind.
    fold (item_amount x). cbn [fst snd] in Ha, Hk. rewrite Ha, Hk.
    red_ok. rewrite IH. now rewrite !append_assoc.
Qed.

Lemma format_top5_returns (costs : list CostItem) :
  forall i message r,
    format_top5 i costs message = ok r ->
    exists rows, Forall2 printable costs rows.
Proof.
  induction costs as [|x costs IH]; intros i message r H.
  - exists []. constructor.
  - cbn [format_top5] in H. unfold rbind in H. fold (item_amount x) in H.
    destruct (float_amount (item_amount x)) as [e|amount] eqn:Ha; [discriminate|].
    destruct (first_key x) as [e|service] eqn:Hk; [discriminate|].
    apply IH in H as (rows & Hr).
    exists ((amount, service) :: rows). constructor; [now split|exact Hr].
Qed.

(** X17.  The report for a list of items is the report for no items
    followed by one line per item, in the order of the list and numbered
    from 1; an item with no amount is printed with the amount 0. *)
Theorem format_cost_message_lines
    (account_id account_alias display_start_date display_end_date : string)
    (total_cost_usd : float) (total_cost_jpy : Z)
    (forecast_cost_usd : float) (forecast_cost_jpy : Z)
    (exchange_rate : float) (top5_costs : list CostItem)
    (rows : list (float * string)) :
  Forall2 printable top5_costs rows ->
  exists header,
    format_cost_message account_id account_alias display_start_date
      display_end_date total_cost_usd total_cost_jpy forecast_cost_usd
      forecast_cost_jpy exchange_rate [] = ok header /\
    format_cost_message account_id account_alias display_start_date
      display_end_date total_cost_usd total_cost_jpy forecast_cost_usd
      forecast_cost_jpy exchange_rate top5_costs
      = ok (header ++ report_lines 1 rows) /\
    (forall x service keys,
       item_amount x = None -> Keys x = Some (service :: keys) ->
       printable x (S754_zero false, service)).
Proof.
  intros R. unfold format_cost_message. eexists. split; [reflexivity|].
  split; [now apply format_top5_rows|].
  intros x service keys Ha Hk. unfold printable, first_key. now rewrite Ha, Hk.
Qed.

(** X18.  [format_cost_message] returns exactly when every item can be
    printed: each has a first key, and an amount that is absent or a
    number.  The first item that cannot be printed makes it raise, and an
    item whose "Keys" is missing or empty, its amount being printable,
    raises [TypeError] or [IndexError]. *)
Theorem format_cost_message_returns_iff
    (account_id account_alias display_start_date display_end_date : string)
    (total_cost_usd : float) (total_cost_jpy : Z)
    (forecast_cost_usd : float) (forecast_cost_jpy : Z)
    (exchange_rate : float) (top5_costs : list CostItem) :
  ((exists message,
      format_cost_message account_id account_alias display_start_date
        display_end_date total_cost_usd total_cost_jpy forecast_cost_usd
        forecast_cost_jpy exchange_rate top5_costs = ok message) <->
   exists rows, Forall2 printable top5_costs rows) /\
  (forall printed x rest rows amount,
     top5_costs = (printed ++ x :: rest)%list ->
     Forall2 printable printed rows ->
     float_amount (item_amount x) = ok amount ->
     lacks_first_key x ->
     exists e,
       format_cost_message account_id account_alias display_start_date
         display_end_date total_cost_usd total_cost_jpy forecast_cost_usd
         forecast_cost_jpy exchange_rate top5_costs = inl e /\
       (exn_cls e = TypeError \/ exn_cls e = IndexError)).
Proof.
  unfold format_cost_message. split.
  - split.
    + intros (message & H). now apply format_top5_returns in H.
    + intros (rows & R). eexists. apply format_top5_rows. exact R.
  - intros printed x rest rows amount -> R Ha Hk.
    generalize 1 at 1.
    match goal with |- forall z, exists e, format_top5 z _ ?m = _ /\ _ =>
      generalize m end.
    induction R as [|y [a s] printed rows [Hya Hyk] _ IH]; intros message i.
    + cbn [app format_top5]. unfold rbind. fold (item_amount x). rewrite Ha.
      red_ok. unfold first_key.
      destruct Hk as [Hk|Hk]; rewrite Hk; eexists; split;
        try reflexivity; auto.
    + cbn [app format_top5]. unfold rbind. fold (item_amount y).
      cbn [fst snd] in Hya, Hyk. rewrite Hya, Hyk. red_ok. apply IH.
Qed.

Lemma amount_key_printable (x : CostItem) (k : float) :
  amount_key x = ok k -> float_amount (item_amount x) = ok k.
Proof.
  unfold amount_key, item_amount, rbind, getitem, float_amount, ok, throw.
  destruct (Metrics_ x) as [metrics|]; [|discriminate].
  destruct (assoc "UnblendedCost" metrics) as [cost|]; [|discriminate].
  destruct (Amount cost) as [amount|]; [|discriminate].
  trivial.
Qed.

Lemma decorate_keys (l : list CostItem) :
  forall dl, decorate l = ok dl ->
  Forall (fun x => exists k, amount_key x = ok k) l.
Proof.
  induction l as [|x l IH]; intros dl H; [constructor|].
  cbn [decorate] in H. unfold rbind in H.
  destruct (amount_key x) as [e|k] eqn:K; [discriminate|].
  destruct (decorate l) as [e|ks] eqn:D; [discriminate|].
  constructor; [now exists k|now apply (IH ks)].
Qed.

Lemma Forall_printable_rows (l : list CostItem) :
  Forall (fun x => exists row, printable x row) l ->
  exists rows, Forall2 printable l rows.
Proof.
  induction 1 as [|x l (row & Hx) _ (rows & IH)].
  - exists []. constructor.
  - exists (row :: rows). now constructor.
Qed.

(** X19.  The ranking and the report fit together: every list of items
    that [get_cost_data] returns without [include_tax] can be printed, so
    [format_cost_message] does not raise on it. *)
Theorem get_cost_data_result_prints (w : world) (dates : Dates)
    (total_cost_usd : float) (top5 : list CostItem) t
    (account_id account_alias display_start_date display_end_date : string)
    (total_cost_jpy : Z) (forecast_cost_usd : float) (forecast_cost_jpy : Z)
    (exchange_rate : float) :
  get_cost_data dates false w = (inr (total_cost_usd, top5), t) ->
  exists message,
    format_cost_message account_id account_alias display_start_date
      display_end_date total_cost_usd total_cost_jpy forecast_cost_usd
      forecast_cost_jpy exchange_rate top5 = ok message.
Proof.
  intros H.
  apply get_cost_data_inv in H
    as (grouped & total & by_time & tbt & decorated
        & Hc & Hg & Ht & Hb & Hk & Hd & -> & Hf & Ha).
  set (groups := match Groups by_time with Some g => g | None => [] end) in *.
  pose proof (decorate_snd _ Hd) as S.
  pose proof (decorate_keys _ Hd) as K.
  assert (P : Permutation (sorted_reverse decorated) (ranked_groups false groups)).
  { unfold sorted_reverse. rewrite <- S. apply Permutation_map.
    apply sort_desc_perm. }
  assert (F : Forall (fun x => exists row, printable x row)
                (ranked_groups false groups)).
  { rewrite Forall_forall in *. intros x Hx.
    destruct (K x Hx) as (k & Hk').
    assert (G : In x groups).
    { unfold ranked_groups in Hx. now apply filter_In in Hx. }
    destruct (Hk eq_refl x G) as (key & keys & Hkey).
    exists (k, key). split; cbn [fst snd].
    - now apply amount_key_printable.
    - unfold first_key. now rewrite Hkey. }
  apply (Permutation_Forall (Permutation_sym P)) in F.
  apply (Forall_firstn 5) in F.
  apply Forall_printable_rows in F as (rows & R).
  eexists. unfold format_cost_message. apply format_top5_rows. exact R.
Qed.

(* ================================================================= *)
(** * Further properties: the run of [main] *)

Lemma without_ret {A} p (a : A) : without p (ret a).
Proof. now intros w. Qed.

Lemma without_raise {A} p (e : exn) : without p (@raise A e).
Proof. now intros w. Qed.

Lemma without_lift {A} p (r : result A) : without p (lift r).
Proof. now intros w. Qed.

Lemma without_emit p (ev : event) : p ev = false -> without p (emit ev).
Proof. intros H w. unfold emit. simpl. now rewrite H. Qed.

Lemma without_call {A} p (ev : event) (outcome : world -> result A) :
  p ev = false -> without p (call ev outcome).
Proof. intros H w. unfold call. simpl. now rewrite H. Qed.

Lemma without_bind {A B} p (m : M A) (f : A -> M B) :
  without p m -> (forall a, without p (f a)) -> without p (bind m f).
Proof.
  intros Hm Hf w. unfold bind. specialize (Hm w).
  destruct (m w) as [[e|a] t]; [exact Hm|].
  specialize (Hf a w). destruct (f a w) as [r t']. simpl in *.
  now rewrite filter_app, Hm, Hf.
Qed.

Lemma without_try_except {A} p (body : M A) caught handler :
  without p body -> (forall e, without p (handler e)) ->
  without p (try_except body caught handler).
Proof.
  intros Hb Hh w. unfold try_except. specialize (Hb w).
  destruct (body w) as [[e|a] t]; [|exact Hb].
  destruct (caught e); [|exact Hb].
  specialize (Hh e w). destruct (handler e w) as [r t']. simpl in *.
  now rewrite filter_app, Hb, Hh.
Qed.

Ltac without_auto :=
  repeat first
    [ apply without_ret | apply without_raise | apply without_lift
    | apply without_emit; reflexivity | apply without_call; reflexivity
    | apply without_bind; [|intros ?]
    | apply without_try_except; [|intros ?]
    | match goal with
      | |- without _ (if ?b then _ else _) => destruct b
      | |- without _ (match ?x with _ => _ end) => destruct x
      end ].

Lemma get_dates_no_events (w : world) : snd (get_dates w) = [].
Proof.
  assert (W : without (fun _ => true) get_dates).
  { intros w'. unfold get_dates. generalize (date_today w'). intros t.
    revert w'.
    match goal with |- forall w, filter _ (snd (?m w)) = [] =>
      change (without (fun _ => true) m) end.
    without_auto. }
  specialize (W w). destruct (snd (get_dates w)); [reflexivity|discriminate].
Qed.

Lemma get_account_info_before_fx : without is_fx_or_forecast get_account_info.
Proof.
  unfold get_account_info, client, logger_info, logger_error. without_auto.
Qed.

Lemma get_cost_data_before_fx dates include_tax :
  without is_fx_or_forecast (get_cost_data dates include_tax).
Proof.
  unfold get_cost_data, get_aws_cost_usage, client, logger_info, logger_error.
  without_auto.
Qed.




(** X21.  An event that is not an object stops [main] at its first
    statement: no service is called, and the only event of the run is the
    error line for the [AttributeError]. *)
Theorem main_rejects_non_object_event (w : world) (event context : pyval) :
  (forall d, event <> PDict d) ->
  main event context w =
    (inr tt,
     [EvLog ERROR
        ("An error occurred during script execution: "
           ++ "'" ++ type_name event ++ "' object has no attribute 'get'")]).
Proof.
  intros H. unfold main, main_try, try_except, bind, lift.
  destruct event; try reflexivity. now destruct (H d).
Qed.

(** X22.  A failure of the identity or of the billing step ends the run
    before the FX ticker is requested: the trace holds no request to the
    ticker, no forecast query and no delivery. *)
Theorem main_stops_at_failure (w : world) (event context include_tax : pyval)
    (dates : Dates) (e : exn) t0 t1 :
  py_get event "include_tax" (PBool false) = ok include_tax ->
  get_dates w = (inr dates, t0) ->
  (get_account_info w = (inl e, t1) \/
   exists account t2,
     get_account_info w = (inr account, t1) /\
     get_cost_data dates (py_truthy include_tax) w = (inl e, t2)) ->
  filter is_fx_or_forecast (snd (main event context w)) = [] /\
  notifications (snd (main event context w)) = [].
Proof.
  intros Hi Hd Hf.
  assert (T0 : t0 = []).
  { pose proof (get_dates_no_events w) as S. now rewrite Hd in S. }
  subst t0.
  assert (R : exists t, main_try event w = (inl e, t) /\
                        filter is_fx_or_forecast t = []).
  { destruct Hf as [Ha|([account_id account_alias] & t2 & Ha & Hc)];
      unfold main_try, bind, lift; rewrite Hi; red_ok; rewrite Hd, Ha.
    - eexists. split; [reflexivity|]. cbn [app].
      pose proof (get_account_info_before_fx w) as Q. now rewrite Ha in Q.
    - rewrite Hc. eexists. split; [reflexivity|]. cbn [app].
      pose proof (get_account_info_before_fx w) as Q1. rewrite Ha in Q1.
      pose proof (get_cost_data_before_fx dates (py_truthy include_tax) w) as Q2.
      rewrite Hc in Q2. cbn [snd] in *. now rewrite filter_app, Q1, Q2. }
  destruct R as (t & Hm & Q).
  destruct (@main_on_exception w event context e t Hm) as (E & N).
  split; [|exact N]. rewrite E. cbn [snd]. now rewrite filter_app, Q.
Qed.


Lemma convert_nan_rate (rate amount : float) :
  Float64.is_nan rate = true ->
  convert_usd_to_jpy rate amount
    = throw ValueError "cannot convert float NaN to integer".
Proof.
  unfold convert_usd_to_jpy, Float64.mul.
  destruct rate; try discriminate. intros _. now destruct amount.
Qed.

(** X24.  The rate of the ticker is not validated: when the "ask" reads as
    NaN, [get_exchange_rate] returns it, the conversion of the total then
    raises [ValueError], and the run ends in the catch-all right after
    the request to the ticker, with nothing delivered. *)
Theorem main_aborts_on_nan_rate (w : world) (event context include_tax : pyval)
    (dates : Dates) (account : string * string) (total_cost_usd : float)
    (top5 : list CostItem) (rate : float) t0 t1 t2 t3 :
  py_get event "include_tax" (PBool false) = ok include_tax ->
  get_dates w = (inr dates, t0) ->
  get_account_info w = (inr account, t1) ->
  get_cost_data dates (py_truthy include_tax) w
    = (inr (total_cost_usd, top5), t2) ->
  get_exchange_rate w = (inr rate, t3) ->
  Float64.is_nan rate = true ->
  main event context w =
    (inr tt,
     (t0 ++ t1 ++ t2 ++ t3 ++
      [EvLog ERROR
         ("An error occurred during script execution: "
            ++ "cannot convert float NaN to integer")])%list) /\
  notifications (snd (main event context w)) = [].
Proof.
  intros Hi Hd Ha Hc Hx Hn.
  assert (Hm : main_try event w =
               (throw ValueError "cannot convert float NaN to integer",
                (t0 ++ t1 ++ t2 ++ t3)%list)).
  { destruct account as [account_id account_alias].
    unfold main_try, bind, lift. rewrite Hi. red_ok. rewrite Hd, Ha, Hc, Hx.
    rewrite (@convert_nan_rate rate total_cost_usd Hn).
    cbv beta iota delta [throw]. cbn [app]. now rewrite app_nil_r. }
  destruct (@main_on_exception w event context _ _ Hm) as (E & Q).
  split; [|exact Q].
  rewrite E. now rewrite <- !app_assoc.
Qed.

End Handler.

(* ================================================================= *)
(** * The properties at work on the concrete account *)

(** The report that the run of 15 March 2024 prints. *)
Definition example_report : string :=
  Eval vm_compute in
    String.concat ""
      (printed (snd (main decimal_float_of_str example_str_of_float
                          (PDict []) PNone example_run))).


Lemma get_dates_window_witness :
  valid_date first_day /\
  exists d,
    get_dates (example_world first_day None (inr example_ticker)) = (inr d, []) /\
    is_first_day d = true /\
    (1 = 1 -> start_date d = "2024-02-01") /\
    (1 <> 1 -> start_date d = "2024-03-01") /\
    start_of_next_month d = "2024-04-01" /\
    add_one_day (Date 2024 3 31) = ok (Date 2024 4 1).
Proof.
  split; [reflexivity|].
  apply (@get_dates_window (example_world first_day None (inr example_ticker))).
  - reflexivity.
  - split; [discriminate|]. intros [Y _]. discriminate.
Defined.

Lemma get_dates_start_before_today_witness :
  valid_date mid_month /\
  exists d,
    get_dates example_run = (inr d, []) /\
    today d = "2024-03-15" /\
    start_date d = "2024-03-01" /\
    valid_date (Date 2024 3 1) /\
    date_lt (Date 2024 3 1) mid_month.
Proof.
  split; [reflexivity|].
  apply (@get_dates_start_before_today example_run).
  - reflexivity.
  - split; [discriminate|]. intros [Y _]. discriminate.
Defined.

Lemma get_forecast_data_branches_witness :
  forecast_queries
    (snd (get_forecast_data decimal_float_of_str example_dates
            (Float64.of_decimal 54210 2) example_run))
    = [("2024-03-15", "2024-04-01")] /\
  fst (get_forecast_data decimal_float_of_str example_dates
         (Float64.of_decimal 54210 2) example_run)
    = inr (Float64.of_decimal 120000 2).
Proof.
  destruct (@get_forecast_data_branches decimal_float_of_str example_run
              example_dates (Float64.of_decimal 54210 2)) as [_ H].
  destruct (H eq_refl eq_refl) as [Q R].
  split; [exact Q|].
  apply (R {| ForecastTotal :=
                Some {| Amount := Some "1200.00"; Unit := Some "USD" |} |}
           {| Amount := Some "1200.00"; Unit := Some "USD" |}
           "1200.00" (Float64.of_decimal 120000 2));
    reflexivity.
Defined.

Lemma convert_usd_to_jpy_truncates_witness :
  convert_usd_to_jpy (Float64.of_decimal 1450 1) (Float64.of_decimal 54210 2)
    = ok 78604 /\
  convert_usd_to_jpy rate_150 minus_one_cent = ok (- 1).
Proof.
  split.
  - apply (proj1 (convert_usd_to_jpy_truncates
                    (Float64.of_decimal 1450 1) (Float64.of_decimal 54210 2)));
      vm_compute; reflexivity.
  - apply (proj1 (proj2 (convert_usd_to_jpy_truncates rate_150 minus_one_cent))
             1);
      vm_compute; reflexivity.
Defined.

(** At a rate of 150.0 a credit of one cent is worth -1.5 yen: the code
    gives -1 where the floor is -2. *)
Lemma convert_usd_to_jpy_floor_counterexample :
  spec_floor_convert rate_150 minus_one_cent = Some (- 2) /\
  convert_usd_to_jpy rate_150 minus_one_cent = ok (- 1) /\
  convert_usd_to_jpy rate_150 minus_one_cent <> ok (- 2).
Proof.
  split; [vm_compute; reflexivity|].
  split; [vm_compute; reflexivity|].
  vm_compute. discriminate.
Qed.



(** C4 (the defect).  The ticker answers 200 with the JSON array [[]]:
    [get_exchange_rate] raises [AttributeError] instead of returning the
    default rate, and the run of [main] ends in the catch-all with
    nothing delivered. *)
Theorem get_exchange_rate_array_payload_escapes :
  get_exchange_rate decimal_float_of_str example_str_of_float array_ticker_run
    = (inl (Exn AttributeError "'list' object has no attribute 'get'"),
       [EvGet GMOCOIN_API_ENDPOINT]) /\
  notifications
    (snd (main decimal_float_of_str example_str_of_float (PDict []) PNone
               array_ticker_run)) = [] /\
  In (EvLog ERROR
        "An error occurred during script execution: 'list' object has no attribute 'get'")
     (snd (main decimal_float_of_str example_str_of_float (PDict []) PNone
                array_ticker_run)).
Proof.
  split; [reflexivity|]. split; [vm_compute; reflexivity|].
  vm_compute. repeat (first [left; reflexivity | right]).
Qed.

Lemma main_catches_every_exception_witness :
  fst (main decimal_float_of_str example_str_of_float (PDict []) PNone
            denied_identity_run) = inr tt /\
  notifications
    (snd (main decimal_float_of_str example_str_of_float (PDict []) PNone
               denied_identity_run)) = [] /\
  exists t,
    snd (main decimal_float_of_str example_str_of_float (PDict []) PNone
              denied_identity_run) =
      (t ++ [EvLog ERROR
               ("An error occurred during script execution: "
                  ++ exn_str (Exn ClientError "AccessDenied"))])%list.
Proof.
  destruct (main_catches_every_exception decimal_float_of_str
              example_str_of_float denied_identity_run (PDict []) PNone)
    as [R F].
  split; [exact R|].
  apply F.
  eapply identity_fails; reflexivity.
Defined.

Lemma get_cost_data_unguarded_keys_witness :
  exists e,
    fst (get_cost_data decimal_float_of_str example_dates false keyless_run)
      = inl e /\
    (exn_cls e = TypeError \/ exn_cls e = IndexError).
Proof.
  apply (proj2 (@get_cost_data_unguarded_keys decimal_float_of_str keyless_run
                  example_dates (usage keyless_groups true)
                  (usage keyless_groups false)
                  {| Total := None; Groups := Some keyless_groups |}
                  keyless_groups)); try reflexivity.
  apply Exists_cons_tl. apply Exists_cons_hd. now right.
Defined.

Lemma main_reports_through_yesterday_witness :
  exists (y : date) (message head tail : string),
    delivers (EvPrint example_report) message /\
    message = head ++ "期間: " ++ "2024-03-01" ++ " - " ++ strftime y ++ nl ++ tail /\
    sub_one_day mid_month = ok y /\
    In (EvGetCostAndUsage "2024-03-01" "2024-03-15" true)
       (snd (main decimal_float_of_str example_str_of_float (PDict []) PNone
                  example_run)) /\
    forall x, valid_date x ->
      (date_le (Date 2024 3 1) x /\ date_le x y <->
       date_le (Date 2024 3 1) x /\ date_lt x mid_month).
Proof.
  apply (@main_reports_through_yesterday decimal_float_of_str
           example_str_of_float example_run (EvPrint example_report)
           (PDict []) PNone).
  - reflexivity.
  - vm_compute. repeat (first [left; reflexivity | right]).
  - reflexivity.
Defined.

(* ================================================================= *)
(** * The further properties at work *)

(** The result and the trace of the billing step of the example run. *)
Definition example_total : float := Float64.of_decimal 54210 2.

Definition example_top5 : list CostItem :=
  [group "EC2" "100.5"; group "RDS" "100.5"; group "S3" "20.25";
   group "SQS" "20"; group "SNS" "1"].

Definition example_cost_trace : list event :=
  Eval vm_compute in
    snd (get_cost_data decimal_float_of_str example_dates false example_run).

Definition example_rows : list (float * string) :=
  [(Float64.of_decimal 1005 1, "EC2"); (Float64.of_decimal 1005 1, "RDS")].


Lemma get_exchange_rate_falls_back_witness :
  fst (get_exchange_rate decimal_float_of_str example_str_of_float timeout_run)
    = inr DEFAULT_EXCHANGE_RATE.
Proof.
  apply (proj1 (get_exchange_rate_falls_back decimal_float_of_str
                  example_str_of_float timeout_run) "Read timed out.").
  reflexivity.
Defined.

Lemma get_exchange_rate_on_ticker_witness :
  fst (get_exchange_rate decimal_float_of_str example_str_of_float example_run)
    = inr (Float64.of_decimal 1450 1).
Proof.
  refine (proj2 (@get_exchange_rate_on_ticker decimal_float_of_str
                   example_str_of_float example_run example_ticker
                   _ (PInt 0) _ eq_refl eq_refl eq_refl eq_refl eq_refl eq_refl)
            [PDict [("symbol", PStr "EUR_JPY"); ("ask", PStr "160.1")]]
            [("symbol", PStr "USD_JPY"); ("ask", PStr "145.0")]
            [] "145.0" (Float64.of_decimal 1450 1) eq_refl _ eq_refl eq_refl _).
  - repeat constructor. now eexists.
  - vm_compute. reflexivity.
Defined.

Lemma get_exchange_rate_unreadable_ask_witness :
  fst (get_exchange_rate decimal_float_of_str example_str_of_float unquoted_run)
    = inr DEFAULT_EXCHANGE_RATE.
Proof.
  refine (@get_exchange_rate_unreadable_ask decimal_float_of_str
            example_str_of_float unquoted_run _ _ (PInt 0) [] []
            [("symbol", PStr "USD_JPY"); ("ask", PStr "n/a")]
            eq_refl eq_refl eq_refl eq_refl eq_refl eq_refl _ eq_refl _).
  - constructor.
  - right. right. exists "n/a". split; reflexivity.
Defined.

Lemma get_account_info_alias_witness :
  fst (get_account_info example_run) = inr ("123456789012", "prod").
Proof.
  refine (proj1 (@get_account_info_alias example_run
                   {| Account := Some "123456789012" |} "123456789012"
                   {| AccountAliases := Some ["prod"] |} ["prod"]
                   eq_refl eq_refl eq_refl eq_refl eq_refl eq_refl)).
Defined.

Lemma get_account_info_identity_first_witness :
  get_account_info denied_identity_run =
    (inl (Exn ClientError "AccessDenied"), [EvClient "sts"; EvGetCallerIdentity]).
Proof.
  apply (proj2 (get_account_info_identity_first denied_identity_run)
           (Exn ClientError "AccessDenied")); reflexivity.
Defined.

Lemma get_aws_cost_usage_transparent_witness :
  fst (get_aws_cost_usage "2024-03-01" "2024-03-15" true throttled_run)
    = throw ClientError "ThrottlingException" /\
  snd (get_aws_cost_usage "2024-03-01" "2024-03-15" true throttled_run) =
    [EvClient "ce";
     EvLog INFO "Calling cost and usage API from 2024-03-01 to 2024-03-15";
     EvGetCostAndUsage "2024-03-01" "2024-03-15" true;
     EvLog ERROR
       "Failed to retrieve cost and usage data from AWS: ThrottlingException"].
Proof.
  apply (proj1 (get_aws_cost_usage_transparent throttled_run
                  "2024-03-01" "2024-03-15" true)).
  reflexivity.
Defined.

Lemma get_aws_cost_forecast_transparent_witness :
  fst (get_aws_cost_forecast "2024-03-15" "2024-04-01" throttled_run)
    = throw ClientError "ThrottlingException" /\
  snd (get_aws_cost_forecast "2024-03-15" "2024-04-01" throttled_run) =
    [EvClient "ce";
     EvLog INFO "Calling cost forecast API from 2024-03-15 to 2024-04-01";
     EvGetCostForecast "2024-03-15" "2024-04-01";
     EvLog ERROR "Failed to retrieve cost forecast from AWS: ThrottlingException"].
Proof.
  apply (proj1 (get_aws_cost_forecast_transparent throttled_run
                  "2024-03-15" "2024-04-01")).
  reflexivity.
Defined.

Lemma get_dates_overflow_only_witness :
  snd (get_dates (example_world (Date 9999 12 31) None (inr example_ticker))) = [] /\
  ((exists d, fst (get_dates (example_world (Date 9999 12 31) None
                                (inr example_ticker))) = inr d)
   <-> has_neighbours (Date 9999 12 31)) /\
  (forall e,
     fst (get_dates (example_world (Date 9999 12 31) None (inr example_ticker)))
       = inl e -> exn_cls e = OverflowError).
Proof.
  apply (get_dates_overflow_only
           (example_world (Date 9999 12 31) None (inr example_ticker))).
  reflexivity.
Defined.

Lemma get_dates_first_day_previous_month_witness :
  exists d,
    get_dates (example_world new_year None (inr example_ticker)) = (inr d, []) /\
    is_first_day d = true /\
    start_date d = "2024-12-01" /\
    yesterday d = "2024-12-31".
Proof.
  apply (get_dates_first_day_previous_month
           (example_world new_year None (inr example_ticker))).
  - reflexivity.
  - split; [discriminate|]. intros [Y _]. discriminate.
  - reflexivity.
Defined.

Lemma get_dates_ranges_not_empty_witness :
  exists d y,
    get_dates (example_world first_day None (inr example_ticker)) = (inr d, []) /\
    start_date d = "2024-02-01" /\
    yesterday d = strftime y /\
    date_le (Date 2024 2 1) y /\
    today d = "2024-03-01" /\
    start_of_next_month d = "2024-04-01" /\
    valid_date (Date 2024 4 1) /\
    date_lt first_day (Date 2024 4 1).
Proof.
  apply (get_dates_ranges_not_empty
           (example_world first_day None (inr example_ticker))).
  - reflexivity.
  - split; [discriminate|]. intros [Y _]. discriminate.
Defined.

Lemma get_cost_data_result_invariant_witness :
  exists grouped by_time,
    ce_get_cost_and_usage example_run "2024-03-01" "2024-03-15" true = ok grouped /\
    first_result grouped = ok by_time /\
    let groups := match Groups by_time with Some g => g | None => [] end in
    incl example_top5 groups /\
    List.length example_top5
      = Nat.min 5 (List.length (ranked_groups false groups)) /\
    (List.length example_top5 <= 5)%nat /\
    (false = false -> Forall (fun x => is_tax x = false) example_top5).
Proof.
  apply (@get_cost_data_result_invariant decimal_float_of_str example_run
           example_dates false example_total example_top5 example_cost_trace).
  vm_compute. reflexivity.
Defined.

Lemma get_cost_data_missing_results_witness :
  fst (get_cost_data decimal_float_of_str example_dates false no_results_run)
    = inr (S754_zero false, []).
Proof.
  apply (proj1 (@get_cost_data_missing_results decimal_float_of_str
                  no_results_run example_dates false
                  {| ResultsByTime := None |} {| ResultsByTime := None |}
                  eq_refl eq_refl eq_refl)); reflexivity.
Defined.

Lemma get_cost_data_grouped_failure_witness :
  fst (get_cost_data decimal_float_of_str example_dates false throttled_run)
    = throw ClientError "ThrottlingException" /\
  ~ In (EvGetCostAndUsage "2024-03-01" "2024-03-15" false)
       (snd (get_cost_data decimal_float_of_str example_dates false throttled_run)) /\
  exists t,
    snd (get_cost_data decimal_float_of_str example_dates false throttled_run) =
      (t ++ [EvLog ERROR "Failed to get cost data: ThrottlingException"])%list.
Proof.
  apply (@get_cost_data_grouped_failure decimal_float_of_str throttled_run
           example_dates false (Exn ClientError "ThrottlingException"));
    reflexivity.
Defined.

Lemma get_cost_data_unreadable_amount_witness :
  exists e,
    fst (get_cost_data decimal_float_of_str example_dates true unpriced_run) = inl e /\
    (exn_cls e = KeyError \/ exn_cls e = ValueError).
Proof.
  apply (@get_cost_data_unreadable_amount decimal_float_of_str unpriced_run
           example_dates true (usage unpriced_groups true)
           (usage unpriced_groups false)
           {| Total := None; Groups := Some unpriced_groups |});
    try reflexivity.
  - discriminate.
  - apply Exists_cons_tl. apply Exists_cons_hd. eexists. reflexivity.
Defined.

Lemma get_forecast_data_edges_witness :
  fst (get_forecast_data decimal_float_of_str example_dates example_total
         no_forecast_total_run) = inr (S754_zero false) /\
  fst (get_forecast_data decimal_float_of_str example_dates example_total
         throttled_run) = throw ClientError "ThrottlingException".
Proof.
  split.
  - apply (proj1 (get_forecast_data_edges decimal_float_of_str
                    no_forecast_total_run example_dates example_total
                    eq_refl eq_refl) {| ForecastTotal := None |});
      [reflexivity|now left].
  - apply (proj2 (proj2 (get_forecast_data_edges decimal_float_of_str
                           throttled_run example_dates example_total
                           eq_refl eq_refl))
             (Exn ClientError "ThrottlingException")).
    reflexivity.
Defined.

Lemma format_cost_message_lines_witness :
  exists header,
    format_cost_message decimal_float_of_str "123456789012" "prod"
      "2024-03-01" "2024-03-14" example_total 78604
      (Float64.of_decimal 120000 2) 174000 (Float64.of_decimal 1450 1) []
      = ok header /\
    format_cost_message decimal_float_of_str "123456789012" "prod"
      "2024-03-01" "2024-03-14" example_total 78604
      (Float64.of_decimal 120000 2) 174000 (Float64.of_decimal 1450 1)
      [group "EC2" "100.5"; group "RDS" "100.5"]
      = ok (header ++ report_lines 1 example_rows) /\
    (forall x service keys,
       item_amount x = None -> Keys x = Some (service :: keys) ->
       printable decimal_float_of_str x (S754_zero false, service)).
Proof.
  apply (@format_cost_message_lines decimal_float_of_str "123456789012" "prod"
           "2024-03-01" "2024-03-14" example_total 78604
           (Float64.of_decimal 120000 2) 174000 (Float64.of_decimal 1450 1)
           [group "EC2" "100.5"; group "RDS" "100.5"] example_rows).
  repeat constructor.
Defined.

Lemma format_cost_message_returns_iff_witness :
  exists e,
    format_cost_message decimal_float_of_str "123456789012" "prod"
      "2024-03-01" "2024-03-14" example_total 78604
      (Float64.of_decimal 120000 2) 174000 (Float64.of_decimal 1450 1)
      keyless_groups = inl e /\
    (exn_cls e = TypeError \/ exn_cls e = IndexError).
Proof.
  apply (proj2 (format_cost_message_returns_iff decimal_float_of_str
                  "123456789012" "prod" "2024-03-01" "2024-03-14"
                  example_total 78604 (Float64.of_decimal 120000 2) 174000
                  (Float64.of_decimal 1450 1) keyless_groups)
           [group "EC2" "100.5"]
           {| Keys := Some []; Metrics_ := Some (usd "3") |} []
           [(Float64.of_decimal 1005 1, "EC2")] (Float64.of_decimal 3 0)).
  - reflexivity.
  - repeat constructor.
  - reflexivity.
  - now right.
Defined.

Lemma get_cost_data_result_prints_witness :
  exists message,
    format_cost_message decimal_float_of_str "123456789012" "prod"
      "2024-03-01" "2024-03-14" example_total 78604
      (Float64.of_decimal 120000 2) 174000 (Float64.of_decimal 1450 1)
      example_top5 = ok message.
Proof.
  apply (@get_cost_data_result_prints decimal_float_of_str example_run
           example_dates example_total example_top5 example_cost_trace).
  vm_compute. reflexivity.
Defined.

Lemma main_rejects_non_object_event_witness :
  main decimal_float_of_str example_str_of_float PNone PNone example_run =
    (inr tt,
     [EvLog ERROR
        "An error occurred during script execution: 'NoneType' object has no attribute 'get'"]).
Proof.
  apply (@main_rejects_non_object_event decimal_float_of_str
           example_str_of_float example_run PNone PNone).
  intros d. discriminate.
Defined.

Lemma main_stops_at_failure_witness :
  filter is_fx_or_forecast
    (snd (main decimal_float_of_str example_str_of_float (PDict []) PNone
               denied_identity_run)) = [] /\
  notifications
    (snd (main decimal_float_of_str example_str_of_float (PDict []) PNone
               denied_identity_run)) = [].
Proof.
  apply (@main_stops_at_failure decimal_float_of_str example_str_of_float
           denied_identity_run (PDict []) PNone (PBool false) example_dates
           (Exn ClientError "AccessDenied") []
           [EvClient "sts"; EvGetCallerIdentity]).
  - reflexivity.
  - reflexivity.
  - left. reflexivity.
Defined.


Lemma main_aborts_on_nan_rate_witness :
  main nan_float_of_str example_str_of_float (PDict []) PNone nan_ticker_run =
    (inr tt,
     ([] ++ [EvClient "sts"; EvGetCallerIdentity; EvClient "iam";
             EvListAccountAliases]
         ++ example_cost_trace
         ++ [EvGet GMOCOIN_API_ENDPOINT;
             EvLog INFO ("Successfully retrieved exchange rate: "
                           ++ example_str_of_float S754_nan)]
         ++ [EvLog ERROR
               ("An error occurred during script execution: "
                  ++ "cannot convert float NaN to integer")])%list) /\
  notifications
    (snd (main nan_float_of_str example_str_of_float (PDict []) PNone
               nan_ticker_run)) = [].
Proof.
  apply (@main_aborts_on_nan_rate nan_float_of_str example_str_of_float
           nan_ticker_run (PDict []) PNone (PBool false) example_dates
           ("123456789012", "prod") example_total example_top5 S754_nan
           [] [EvClient "sts"; EvGetCallerIdentity; EvClient "iam";
               EvListAccountAliases]
           example_cost_trace
           [EvGet GMOCOIN_API_ENDPOINT;
            EvLog INFO ("Successfully retrieved exchange rate: "
                          ++ example_str_of_float S754_nan)]).
  - reflexivity.
  - reflexivity.
  - reflexivity.
  - vm_compute. reflexivity.
  - vm_compute. reflexivity.
  - reflexivity.
Defined.
